(** * QuoteTok (src/src/App.js): import parser, preview/commit workflow,
      quote filter and manual add.

    The React component [App] keeps its state in hooks ([quotes], [query],
    [previewList], [importError], [loading]) and changes it from event
    handlers.  The handlers are embedded here as functions over an explicit
    [State] record, written in a small state-and-exception monad so that the
    [try]/[catch] blocks of the source keep their meaning.  JavaScript
    strings are sequences of UTF-16 code units. *)

From Stdlib Require Import NArith List Bool Lia String Ascii.
From stdpp Require Import base list.
Import ListNotations.

Set Implicit Arguments.
Unset Strict Implicit.
Set Default Proof Using "Type".
Set Warnings "-register-all".

(** ** JavaScript strings *)

Module JsString.

(** A UTF-16 code unit. *)
Definition char16 := N.

(** A JavaScript string value. *)
Definition jsstring := list char16.

(** The code units of an ASCII literal. *)
Definition u (s : string) : jsstring :=
  map N_of_ascii (list_ascii_of_string s).

(** Same as [u], with every apostrophe of the literal standing for a double
    quote (code unit 34); used to write JSON text. *)
Definition uq (s : string) : jsstring :=
  map (fun c => if N.eqb c 39 then 34%N else c) (u s).

(** WhiteSpace and LineTerminator code units, the ones [String.prototype.trim]
    strips: TAB, LF, VT, FF, CR, SP, NBSP, U+1680, U+2000..U+200A, U+2028,
    U+2029, U+202F, U+205F, U+3000 and U+FEFF. *)
Definition is_ws (c : char16) : bool :=
  existsb (N.eqb c)
    [9; 10; 11; 12; 13; 32; 160; 5760; 8232; 8233; 8239; 8287; 12288; 65279]%N
  || (N.leb 8192 c && N.leb c 8202).

Fixpoint dropWhile (p : char16 -> bool) (s : jsstring) : jsstring :=
  match s with
  | [] => []
  | c :: s' => if p c then dropWhile p s' else s
  end.

Definition trimStart (s : jsstring) : jsstring := dropWhile is_ws s.

Definition trimEnd (s : jsstring) : jsstring :=
  rev (dropWhile is_ws (rev s)).

(** [s.trim()] *)
Definition trim (s : jsstring) : jsstring := trimEnd (trimStart s).

(** [t.startsWith(s)] *)
Fixpoint startsWith (t s : jsstring) : bool :=
  match s, t with
  | [], _ => true
  | _ :: _, [] => false
  | c :: s', d :: t' => N.eqb c d && startsWith t' s'
  end.

(** [t.includes(s)] *)
Fixpoint includes (t s : jsstring) : bool :=
  startsWith t s
  || match t with
     | [] => false
     | _ :: t' => includes t' s
     end.

(** [t.endsWith(s)] *)
Definition endsWith (t s : jsstring) : bool :=
  startsWith (rev t) (rev s).

(** Truthiness of a string: only the empty string is falsy. *)
Definition nonempty (s : jsstring) : bool :=
  match s with
  | [] => false
  | _ :: _ => true
  end.

(** [s || d] for a string [s]. *)
Definition or_default (s d : jsstring) : jsstring :=
  if nonempty s then s else d.

(** [a.join(sep)] on an array of strings. *)
Fixpoint join (sep : jsstring) (l : list jsstring) : jsstring :=
  match l with
  | [] => []
  | [x] => x
  | x :: r => x ++ sep ++ join sep r
  end.

(** [s.split(sep)] for a one-unit separator: the pieces between the
    occurrences of [sep]; always at least one piece. *)
Fixpoint split (sep : char16) (s : jsstring) : list jsstring :=
  match s with
  | [] => [[]]
  | c :: s' =>
      if N.eqb c sep then [] :: split sep s'
      else match split sep s' with
           | [] => [[c]]
           | p :: ps => (c :: p) :: ps
           end
  end.

(** ASCII-only lower-casing: what [toLowerCase] does to a name made of
    ASCII code units. *)
Definition ascii_toLowerCase (s : jsstring) : jsstring :=
  map (fun c => if N.leb 65 c && N.leb c 90 then (c + 32)%N else c) s.

End JsString.
Export JsString.

(** ** JSON values, as [JSON.parse] returns them *)

(** A number is kept as its [Number.prototype.toString] rendering: that is
    all the parser looks at.  [JSON.parse] never yields NaN, so a number is
    falsy exactly when it is zero, which renders as the single digit 0. *)
Inductive json : Type :=
| JNull
| JBool (b : bool)
| JNum (repr : jsstring)
| JStr (s : jsstring)
| JArr (elems : list json)
| JObj (props : list (jsstring * json)).

Inductive exn : Type :=
| TypeError
| SyntaxError
| Error (msg : jsstring).

(** The outcome of evaluating an expression: a value or a thrown exception. *)
Inductive completion (A : Type) : Type :=
| Normal (a : A)
| Throw (e : exn).
Arguments Throw {A} e.

Definition cbind {A B} (c : completion A) (k : A -> completion B)
  : completion B :=
  match c with
  | Normal a => k a
  | Throw e => Throw e
  end.

Declare Scope completion_scope.
Delimit Scope completion_scope with completion.
Notation "x <~ c ;; k" := (cbind c (fun x => k))
  (at level 100, c at next level, right associativity) : completion_scope.

(** [a.map(f)] with a callback that may throw: left to right, the first
    exception aborts the whole call. *)
Fixpoint mapM {A B} (f : A -> completion B) (l : list A)
  : completion (list B) :=
  match l with
  | [] => Normal []
  | x :: r => cbind (f x) (fun y => cbind (mapM f r) (fun ys => Normal (y :: ys)))
  end.

Fixpoint str_eqb (a b : jsstring) : bool :=
  match a, b with
  | [], [] => true
  | c :: a', d :: b' => N.eqb c d && str_eqb a' b'
  | _, _ => false
  end.

(** Own property of a parsed object. *)
Fixpoint get_own (props : list (jsstring * json)) (key : jsstring)
  : option json :=
  match props with
  | [] => None
  | (k, v) :: r => if str_eqb k key then Some v else get_own r key
  end.

(** [i.text] and [i.author]: reading a property of [null] throws; an object
    answers with its own property; numbers, booleans, strings and arrays have
    no property of either name, so the read gives [undefined] ([None]). *)
Definition get_field (i : json) (key : jsstring) : completion (option json) :=
  match i with
  | JNull => Throw TypeError
  | JObj props => Normal (get_own props key)
  | _ => Normal None
  end.

(** ToBoolean. *)
Definition truthy (v : json) : bool :=
  match v with
  | JNull => false
  | JBool b => b
  | JNum repr => negb (str_eqb repr (u "0"))
  | JStr s => nonempty s
  | JArr _ => true
  | JObj _ => true
  end.

(** [v || d] where [v] may be [undefined] and [d] is a string literal. *)
Definition or_else (v : option json) (d : jsstring) : json :=
  match v with
  | Some x => if truthy x then x else JStr d
  | None => JStr d
  end.

(** ToString.  An array joins its elements with a comma, [null] elements
    rendering as the empty string.  A parsed object inherits
    [Object.prototype.toString] unless it has an own property named
    toString, which is never callable in parsed JSON: then the conversion
    throws. *)
Fixpoint ToString (v : json) : completion jsstring :=
  match v with
  | JNull => Normal (u "null")
  | JBool b => Normal (if b then u "true" else u "false")
  | JNum repr => Normal repr
  | JStr s => Normal s
  | JArr elems =>
      cbind
        ((fix each (l : list json) : completion (list jsstring) :=
            match l with
            | [] => Normal []
            | x :: r =>
                cbind (match x with
                       | JNull => Normal []
                       | _ => ToString x
                       end)
                      (fun s => cbind (each r) (fun ss => Normal (s :: ss)))
            end) elems)
        (fun pieces => Normal (join (u ",") pieces))
  | JObj props =>
      match get_own props (u "toString") with
      | Some _ => Throw TypeError
      | None => Normal (u "[object Object]")
      end
  end.

(** [v.toString()]: the method call; on [null] it throws. *)
Definition call_toString (v : json) : completion jsstring :=
  match v with
  | JNull => Throw TypeError
  | _ => ToString v
  end.

(** ** Quotes, messages and the component state *)

Record Quote : Type := mkQuote { text : jsstring; author : jsstring }.

(** The sentinel author label of the source, an Arabic word meaning
    unknown: U+0645 U+062C U+0647 U+0648 U+0644. *)
Definition UNKNOWN : jsstring := [1605; 1580; 1607; 1608; 1604]%N.

(** The fixed user-facing texts of the source, by role. *)
Inductive message : Type :=
| MsgInvalidJson          (* import error: the JSON file is not valid *)
| MsgUnsupportedType      (* import error: upload a CSV or JSON file only *)
| MsgNothingToImport      (* alert: there are no quotes to import *)
| MsgSaveError            (* alert: error while saving the quotes remotely *)
| MsgImported (n : nat)   (* alert: n quotes imported into the database *)
| MsgConnectionError      (* alert: error while contacting the database *)
| MsgAddedLocally (n : nat) (* alert: n quotes added (locally) *)
| MsgAddError.            (* alert: error while adding *)

(** The hooks of [App] that the handlers read and write, and the [alert]
    dialogs shown so far, oldest first. *)
Record State : Type := mkState {
  quotes : list Quote;
  query : jsstring;
  previewList : list Quote;
  importError : option message;
  loading : bool;
  alerts : list message
}.

(** ** Handlers as state transformers that may throw *)

Definition M (A : Type) : Type := State -> State * completion A.

Definition ret {A} (a : A) : M A := fun s => (s, Normal a).

Definition bind {A B} (m : M A) (k : A -> M B) : M B :=
  fun s =>
    match m s with
    | (s', Normal a) => k a s'
    | (s', Throw e) => (s', Throw e)
    end.

Definition throw {A} (e : exn) : M A := fun s => (s, Throw e).

Definition lift {A} (c : completion A) : M A := fun s => (s, c).

(** [try { body } catch (err) { handler }]: what [body] did to the state
    before it threw stays done. *)
Definition try_catch {A} (body : M A) (handler : exn -> M A) : M A :=
  fun s =>
    match body s with
    | (s', Normal a) => (s', Normal a)
    | (s', Throw e) => handler e s'
    end.

Declare Scope handler_scope.
Delimit Scope handler_scope with handler.
Notation "x <- c ;; k" := (bind c (fun x => k))
  (at level 100, c at next level, right associativity) : handler_scope.
Notation "c ;; k" := (bind c (fun _ => k))
  (at level 100, right associativity) : handler_scope.

Definition setQuotes (f : list Quote -> list Quote) : M unit :=
  fun s => (mkState (f (quotes s)) (query s) (previewList s) (importError s)
                    (loading s) (alerts s), Normal tt).

Definition setQuery (q : jsstring) : M unit :=
  fun s => (mkState (quotes s) q (previewList s) (importError s)
                    (loading s) (alerts s), Normal tt).

Definition setPreviewList (l : list Quote) : M unit :=
  fun s => (mkState (quotes s) (query s) l (importError s)
                    (loading s) (alerts s), Normal tt).

Definition setImportError (e : option message) : M unit :=
  fun s => (mkState (quotes s) (query s) (previewList s) e
                    (loading s) (alerts s), Normal tt).

Definition setLoading (b : bool) : M unit :=
  fun s => (mkState (quotes s) (query s) (previewList s) (importError s)
                    b (alerts s), Normal tt).

Definition alert (m : message) : M unit :=
  fun s => (mkState (quotes s) (query s) (previewList s) (importError s)
                    (loading s) (alerts s ++ [m]), Normal tt).

(** The state after running a handler. *)
Definition exec {A} (m : M A) (s : State) : State := fst (m s).

(** ** What the page gets from its platform and libraries *)

(** [String.prototype.toLowerCase], [JSON.parse] ([None] when it throws a
    SyntaxError) and [Papa.parse(text, {header: false}).data] (an array of
    rows, each an array of strings) are not code of this repository. *)
Class Host : Type := mkHost {
  toLowerCase : jsstring -> jsstring;
  JSON_parse : jsstring -> option json;
  Papa_parse : jsstring -> list (list jsstring)
}.

(** The file picked in the input: its name and the text [FileReader]
    decoded from it. *)
Record File : Type := mkFile { name : jsstring; content : jsstring }.

(** The optional remote table.  [insert] resolves with an optional error or
    rejects; [select_quotes n] (newest first, at most [n] rows) resolves with
    its rows, with no data, or rejects. *)
Inductive remote_error : Type := RemoteError.

Record Row : Type := mkRow { row_text : jsstring; row_author : option jsstring }.

Record Remote : Type := mkRemote {
  insert : list Quote -> completion (option remote_error);
  select_quotes : nat -> completion (option (list Row))
}.

(** ** The import parser (handleFileChange) *)

Local Open Scope completion_scope.
Local Open Scope handler_scope.

(** One array element of a JSON import, lines 127-130. *)
Definition json_item (i : json) : completion Quote :=
  (t <~ get_field i (u "text") ;;
   ts <~ call_toString (or_else t []) ;;
   a <~ get_field i (u "author") ;;
   az <~ call_toString (or_else a UNKNOWN) ;;
   Normal (mkQuote (trim ts) (trim az)))%completion.

(** The body of the [try] block up to the value handed to [setPreviewList],
    lines 125-131. *)
Definition json_candidates `{Host} (txt : jsstring)
  : completion (list Quote) :=
  (data <~ match JSON_parse txt with
           | Some v => Normal v
           | None => Throw SyntaxError
           end ;;
   match data with
   | JArr elems =>
       parsed <~ mapM json_item elems ;;
       Normal (List.filter (fun p => nonempty (text p)) parsed)
   | _ => Throw (Error (u "JSON must be array"))
   end)%completion.

(** [x || d] where [x] is a string or [undefined]. *)
Definition opt_or (x : option jsstring) (d : jsstring) : jsstring :=
  match x with
  | Some v => or_default v d
  | None => d
  end.

(** One row of a CSV import, lines 139-143; [row !! n] is [row[n]]. *)
Definition csv_row (row : list jsstring) : Quote :=
  let t := opt_or (row !! 0%nat) [] in
  let a := opt_or (row !! 1%nat) UNKNOWN in
  mkQuote (trim t) (trim a).

(** Lines 138-144. *)
Definition csv_candidates (rows : list (list jsstring)) : list Quote :=
  List.filter (fun r => nonempty (text r)) (map csv_row rows).

(** [reader.onload], lines 121-150, for the lower-cased name [nm]. *)
Definition onload `{Host} (nm txt : jsstring) : M unit :=
  if endsWith nm (u ".json") then
    try_catch
      (l <- lift (json_candidates txt) ;;
       setPreviewList l)
      (fun _ =>
         setImportError (Some MsgInvalidJson) ;;
         setPreviewList [])
  else if endsWith nm (u ".csv") then
    setPreviewList (csv_candidates (Papa_parse txt))
  else
    (setImportError (Some MsgUnsupportedType) ;;
     setPreviewList []).

(** Lines 115-153; [None] when the change event carries no file. *)
Definition handleFileChange `{Host} (file : option File) : M unit :=
  setImportError None ;;
  match file with
  | None => ret tt
  | Some f => onload (toLowerCase (name f)) (content f)
  end.

(** The two tasks of an import.  [startRead] is what the change handler
    does at once, lines 116-120 and 151-152: it clears the import error
    and, when a file was picked, starts reading it; its result is the
    lower-cased name and the text the reader will deliver.  [finishRead] is
    [reader.onload] for such a read, run when the reader is done; other
    handlers and other reads may run in between.  [handleFileChange] is the
    two run back to back. *)
Definition startRead `{Host} (file : option File)
  : M (option (jsstring * jsstring)) :=
  setImportError None ;;
  ret (match file with
       | Some f => Some (toLowerCase (name f), content f)
       | None => None
       end).

Definition finishRead `{Host} (read : jsstring * jsstring) : M unit :=
  onload (fst read) (snd read).

(** The read a picked file gives rise to. *)
Definition read_of `{Host} (f : File) : jsstring * jsstring :=
  (toLowerCase (name f), content f).

(** The state an import leaves behind: only the preview batch and the
    import error differ from the state before. *)
Definition imported (s : State) (l : list Quote) (e : option message)
  : State :=
  mkState (quotes s) (query s) l e (loading s) (alerts s).

(** The cancel button, lines 275-278. *)
Definition cancelPreview : M unit :=
  setPreviewList [] ;;
  setImportError None.

(** ** Commit (confirmImport) and manual add *)

Definition row_quote (d : Row) : Quote :=
  mkQuote (row_text d) (opt_or (row_author d) UNKNOWN).

(** The records sent to the remote table, lines 162-165. *)
Definition payload_of (batch : list Quote) : list Quote :=
  map (fun p => mkQuote (text p) (or_default (author p) UNKNOWN)) batch.

(** Lines 156-194.  The handler closes over the [previewList] of the render
    it was created in, here the one of the state it starts from. *)
Definition confirmImport (supabase : option Remote) : M unit :=
  fun s0 =>
    let batch := previewList s0 in
    (if Nat.eqb (length batch) 0 then alert MsgNothingToImport
     else
       setLoading true ;;
       match supabase with
       | Some db =>
           try_catch
             (let payload := payload_of batch in
              r <- lift (insert db payload) ;;
              match r with
              | Some _ => alert MsgSaveError
              | None =>
                  alert (MsgImported (length payload)) ;;
                  d <- lift (select_quotes db 500) ;;
                  match d with
                  | None => throw TypeError
                  | Some rows =>
                      setQuotes (fun _ => map row_quote rows) ;;
                      setPreviewList []
                  end
              end)
             (fun _ => alert MsgConnectionError)
       | None =>
           setQuotes (fun prev => batch ++ prev) ;;
           alert (MsgAddedLocally (length batch)) ;;
           setPreviewList []
       end ;;
       setLoading false) s0.

(** Lines 197-215.  [None] is a missing ([undefined]) argument; the author
    parameter has the sentinel as its default value.  In remote mode the
    record is added when the insert resolves without error; a resolved error
    is alerted; a rejected insert has no handler and changes nothing. *)
Definition addManual (supabase : option Remote)
    (txt : option jsstring) (auth : option jsstring) : M unit :=
  match txt with
  | None => ret tt
  | Some t =>
      if negb (nonempty (trim t)) then ret tt
      else
        let a := match auth with
                 | Some a => a
                 | None => UNKNOWN
                 end in
        let q := mkQuote (trim t) (trim (or_default a UNKNOWN)) in
        match supabase with
        | Some db =>
            match insert db [q] with
            | Normal (Some _) => alert MsgAddError
            | Normal None => setQuotes (fun prev => q :: prev)
            | Throw _ => ret tt
            end
        | None => setQuotes (fun prev => q :: prev)
        end
  end.

(** ** The filtered view, lines 69-72 *)

Definition filtered (qs : list Quote) (qry : jsstring) : list Quote :=
  List.filter
    (fun q =>
       let t := text q ++ u " " ++ or_default (author q) [] in
       includes t (trim qry))
    qs.

Definition filtered_view (s : State) : list Quote :=
  filtered (quotes s) (query s).

(** The line a quote is matched on: text, one space, author. *)
Definition haystack (q : Quote) : jsstring :=
  text q ++ u " " ++ author q.

(** ** The workflow states of the preview batch *)

(** Empty: no pending batch.  Previewing: a non-empty batch is held.
    Committing: a commit is in flight (the [loading] flag is up). *)
Inductive workflow : Type := Empty | Previewing | Committing.

Definition workflow_of (s : State) : workflow :=
  if loading s then Committing
  else match previewList s with
       | [] => Empty
       | _ :: _ => Previewing
       end.

(** ** The import format and the rules of the specification *)

Module Spec.

(** The value of a field of an array element: an object answers with its
    own property, anything else has none. *)
Definition raw_field (i : json) (key : jsstring) : option json :=
  match i with
  | JObj props => get_own props key
  | _ => None
  end.

(** The string a value is converted to: a number gives its rendering, a
    boolean its name, an array the strings of its elements joined by
    commas (a null element giving the empty string), an object the text
    [object Object]. *)
Fixpoint string_of (v : json) : jsstring :=
  match v with
  | JNull => u "null"
  | JBool true => u "true"
  | JBool false => u "false"
  | JNum repr => repr
  | JStr str => str
  | JArr elems =>
      join (u ",")
           (map (fun x => match x with
                          | JNull => []
                          | _ => string_of x
                          end) elems)
  | JObj _ => u "[object Object]"
  end.

(** A value that has a string form: it is not, and does not hold at any
    depth of arrays, an object with an own property named toString. *)
Fixpoint convertible (v : json) : bool :=
  match v with
  | JArr elems => forallb convertible elems
  | JObj props =>
      match get_own props (u "toString") with
      | Some _ => false
      | None => true
      end
  | _ => true
  end.

(** The falsy values: null, false, the number zero, the empty string. *)
Definition falsy (v : json) : bool :=
  match v with
  | JNull => true
  | JBool b => negb b
  | JNum repr => str_eqb repr (u "0")
  | JStr str => negb (nonempty str)
  | JArr _ => false
  | JObj _ => false
  end.

(** C1 as the specification words it: the text is the field converted to
    string and trimmed; the author is the field converted to string and
    trimmed, the sentinel standing in when the field is missing or empty;
    the elements with a non-empty text are kept. *)
Definition claimed_text (f : option json) : jsstring :=
  match f with
  | Some v => trim (string_of v)
  | None => []
  end.

Definition claimed_author (f : option json) : jsstring :=
  match f with
  | None => UNKNOWN
  | Some v =>
      match string_of v with
      | [] => UNKNOWN
      | _ :: _ => trim (string_of v)
      end
  end.

Definition claimed_candidates (data : list json) : list Quote :=
  List.filter
    (fun p => nonempty (text p))
    (map (fun i => mkQuote (claimed_text (raw_field i (u "text")))
                           (claimed_author (raw_field i (u "author"))))
         data).

(** The rule the parser follows: a field that is missing or falsy is not
    given; the text is the given field converted to string and trimmed,
    nothing when not given; the author is the given field converted to
    string and trimmed, the sentinel when not given. *)
Definition given (i : json) (key : jsstring) : option json :=
  match raw_field i key with
  | Some v => if falsy v then None else Some v
  | None => None
  end.

Definition json_text (i : json) : jsstring :=
  claimed_text (given i (u "text")).

Definition json_author (i : json) : jsstring :=
  match given i (u "author") with
  | Some v => trim (string_of v)
  | None => UNKNOWN
  end.

Definition json_candidate (i : json) : Quote :=
  mkQuote (json_text i) (json_author i).

(** An element of an importable array: an object whose text and author,
    when given, have a string form. *)
Definition has_string_form (f : option json) : Prop :=
  match f with
  | Some v => convertible v = true
  | None => True
  end.

Definition import_element (i : json) : Prop :=
  (exists props, i = JObj props)
  /\ has_string_form (given i (u "text"))
  /\ has_string_form (given i (u "author")).

(** Text rule: the field converted to string (nothing when missing) and
    trimmed. *)
Definition text_of (f : option jsstring) : jsstring :=
  match f with
  | Some v => trim v
  | None => []
  end.

(** Author rule: the sentinel when the field is missing or empty, else the
    field trimmed. *)
Definition author_of (f : option jsstring) : jsstring :=
  match f with
  | None => UNKNOWN
  | Some [] => UNKNOWN
  | Some v => trim v
  end.

Definition candidate (t a : option jsstring) : Quote :=
  mkQuote (text_of t) (author_of a).

Definition csv_candidate (row : list jsstring) : Quote :=
  candidate (row !! 0%nat) (row !! 1%nat).

(** The filter as the specification words it: a substring test of the query
    over the concatenation of text and author. *)
Definition filter_by (qry : jsstring) (qs : list Quote) : list Quote :=
  List.filter (fun q => includes (text q ++ author q) qry) qs.

(** The import error condition as the specification words it: the
    lower-cased name has neither extension, or it ends in .json and the
    content does not parse as a JSON array. *)
Definition import_rejected `{Host} (f : File) : Prop :=
  let nm := toLowerCase (name f) in
  (endsWith nm (u ".json") = false /\ endsWith nm (u ".csv") = false)
  \/ (endsWith nm (u ".json") = true
      /\ forall data, JSON_parse (content f) <> Some (JArr data)).

(** When coercing an array element throws: the element is [null], or its
    text or author is a truthy value that cannot be converted to a string. *)
Definition unprintable (v : json) : Prop :=
  exists e, ToString v = Throw e.

Definition bad_field (i : json) (key : jsstring) : Prop :=
  exists props v,
    i = JObj props /\ get_own props key = Some v
    /\ truthy v = true /\ unprintable v.

Definition item_rejected (i : json) : Prop :=
  i = JNull \/ bad_field i (u "text") \/ bad_field i (u "author").

(** The persistence collaborator fails a commit of [payload]: the insert
    resolves with an error or rejects, or the insert succeeds and the
    re-fetch that follows it rejects or resolves without data. *)
Definition persistence_fails (db : Remote) (payload : list Quote) : Prop :=
  (exists err, insert db payload = Normal (Some err))
  \/ (exists e, insert db payload = Throw e)
  \/ (insert db payload = Normal None
      /\ (select_quotes db 500 = Normal None
          \/ exists e, select_quotes db 500 = Throw e)).

(** Missing, empty or white-space-only text. *)
Definition blank (txt : option jsstring) : Prop :=
  match txt with
  | None => True
  | Some t => forallb is_ws t = true
  end.

End Spec.

(** ** A concrete platform for running the handlers *)

(** [Papa.parse] with [header: false] on comma-delimited text that has no
    quote character and no carriage return: records end at line feeds,
    fields at commas, and empty input has no rows. *)
Definition papa_plain (input : jsstring) : list (list jsstring) :=
  match input with
  | [] => []
  | _ :: _ => map (split 44%N) (split 10%N input)
  end.

(** A platform whose [JSON.parse] knows the texts of a table, with ASCII
    lower-casing and [papa_plain]. *)
Definition table_host (tbl : list (jsstring * json)) : Host :=
  mkHost ascii_toLowerCase (get_own tbl) papa_plain.

Definition initial_state : State :=
  mkState [] [] [] None false [].

(** A remote whose insert resolves with an error. *)
Definition failing_remote : Remote :=
  mkRemote (fun _ => Normal (Some RemoteError)) (fun _ => Normal (Some [])).

(** A remote that rejects every request. *)
Definition unreachable_remote : Remote :=
  mkRemote (fun _ => Throw (Error (u "network"))) (fun _ => Throw (Error (u "network"))).

(** The two scenario inputs of the specification. *)
Definition scenario_json_text : jsstring :=
  uq "[{'text':'a'},{'text':'','author':'x'},{'author':'y'}]".

Definition scenario_json_items : list json :=
  [ JObj [(u "text", JStr (u "a"))];
    JObj [(u "text", JStr []); (u "author", JStr (u "x"))];
    JObj [(u "author", JStr (u "y"))] ].

Definition scenario_json_value : json := JArr scenario_json_items.

Definition scenario_csv_text : jsstring :=
  u "hello,world" ++ [10%N] ++ u ",skip" ++ [10%N] ++ u "foo,".

Definition scenario_host : Host :=
  table_host [ (scenario_json_text, scenario_json_value);
               (uq "[null]", JArr [JNull]);
               (uq "[]", JArr []) ].

Definition scenario_json_file : File :=
  mkFile (u "Quotes.JSON") scenario_json_text.

Definition scenario_csv_file : File :=
  mkFile (u "quotes.csv") scenario_csv_text.

Definition null_item_file : File := mkFile (u "q.json") (uq "[null]").

Definition empty_array_file : File := mkFile (u "empty.json") (uq "[]").

Definition two_quotes : list Quote :=
  [mkQuote (u "hello") (u "world"); mkQuote (u "foo") UNKNOWN].

Definition previewing_state : State :=
  mkState [mkQuote (u "old") (u "z")] [] two_quotes None false [].

(** A remote that answers like [working_remote] to a non-empty insert and
    to a re-fetch of 500 rows, and fails every other request. *)
Definition picky_remote : Remote :=
  mkRemote (fun payload => match payload with
                           | [] => Throw (Error (u "empty"))
                           | _ :: _ => Normal None
                           end)
           (fun n => if Nat.eqb n 500
                     then Normal (Some [mkRow (u "stored") None])
                     else Normal None).

(** A file whose single element has the number zero as text. *)
Definition zero_text_items : list json :=
  [JObj [(u "text", JNum (u "0")); (u "author", JStr (u "x"))]].

Definition zero_text_host : Host :=
  table_host [(uq "[{'text':0,'author':'x'}]", JArr zero_text_items)].

Definition zero_text_file : File :=
  mkFile (u "zero.json") (uq "[{'text':0,'author':'x'}]").

(** ** Initial load, lines 19-30 and 44-67 *)






(** ** Copy and share, lines 91-112 *)

(** The template literal of lines 92 and 102: the text between double
    quotes, a space, an em dash (U+2014), a space, and the author or the
    sentinel. *)
Definition quote_line (q : Quote) : jsstring :=
  [34%N] ++ text q ++ [34; 32; 8212; 32]%N ++ or_default (author q) UNKNOWN.

(** The platform services the two handlers look for: the clipboard's
    [writeText] and [navigator.share], each absent or telling whether the
    promise it returns resolves. *)
Record Navigator : Type := mkNavigator {
  clipboard_writeText : option (jsstring -> bool);
  share : option (jsstring -> bool)
}.

Inductive notice : Type :=
| NoticeCopied       (* alert: the quote was copied *)
| NoticeCopyFailed.  (* alert: we could not copy *)

(** What a copy or share does to the outside, in order. *)
Inductive effect : Type :=
| ClipboardWrite (txt : jsstring)
| ShareCall (txt : jsstring)
| AlertNotice (n : notice)
| ConsoleWarn.

(** Lines 91-99.  The optional chaining skips the whole call chain when
    there is no clipboard. *)
Definition handleCopy (nav : Navigator) (q : Quote) : list effect :=
  let txt := quote_line q in
  match clipboard_writeText nav with
  | None => []
  | Some writeText =>
      [ClipboardWrite txt;
       AlertNotice (if writeText txt then NoticeCopied else NoticeCopyFailed)]
  end.

(** Lines 101-112. *)
Definition handleShare (nav : Navigator) (q : Quote) : list effect :=
  let txt := quote_line q in
  match share nav with
  | Some sh => ShareCall txt :: (if sh txt then [] else [ConsoleWarn])
  | None => handleCopy nav q
  end.

(** ** The admin panel: manual-add form, import button, preview grid *)

(** The two fields of [ManualAdd], lines 402-403. *)
Record Form : Type := mkForm { form_text : jsstring; form_author : jsstring }.

(** The submit handler, lines 406-411: the result is the form after it. *)
Definition ManualAdd_submit (supabase : option Remote) (fm : Form) : M Form :=
  addManual supabase (Some (form_text fm))
            (Some (or_default (form_author fm) UNKNOWN)) ;;
  ret (mkForm [] []).

(** The [disabled] attribute of the import button, line 268. *)
Definition import_disabled (s : State) : bool :=
  Nat.eqb (length (previewList s)) 0 || loading s.

(** The candidates rendered in the preview grid, line 296:
    [previewList.slice(0, 200)]. *)
Definition preview_shown (s : State) : list Quote :=
  take 200 (previewList s).

(** A platform for running the extra examples: its [JSON.parse] knows one
    array of a number, a string, a boolean and an array. *)
Definition mixed_array_items : list json :=
  [JNum (u "1"); JStr (u "a"); JBool true; JArr [JNum (u "2")]].

Definition mixed_host : Host :=
  table_host [(uq "[1,'a',true,[2]]", JArr mixed_array_items)].

Definition mixed_array_file : File :=
  mkFile (u "mixed.json") (uq "[1,'a',true,[2]]").

(** A remote that takes every insert and returns one stored row without
    author. *)
Definition working_remote : Remote :=
  mkRemote (fun _ => Normal None)
           (fun _ => Normal (Some [mkRow (u "stored") None])).

(** * Properties *)

(** ** Strings *)

Section StringFacts.

Implicit Types (s t q : jsstring) (c : char16).

Lemma dropWhile_all p s :
  forallb p s = true -> dropWhile p s = [].
Proof.
  induction s as [|c s IH]; simpl; [reflexivity|].
  intros [Hc Hs]%andb_prop. rewrite Hc. auto.
Qed.

Lemma dropWhile_app_all p s t :
  forallb p s = true -> dropWhile p (s ++ t) = dropWhile p t.
Proof.
  induction s as [|c s IH]; simpl; [reflexivity|].
  intros [Hc Hs]%andb_prop. rewrite Hc. auto.
Qed.

(** What is left after dropping is empty or starts with a unit that fails
    the test. *)
Lemma dropWhile_head p s :
  dropWhile p s = [] \/ exists c r, dropWhile p s = c :: r /\ p c = false.
Proof.
  induction s as [|c s IH]; simpl; [now left|].
  destruct (p c) eqn:Hc; [exact IH|].
  right. exists c, s. split; [reflexivity|assumption].
Qed.

Lemma dropWhile_nil_all p s :
  dropWhile p s = [] -> forallb p s = true.
Proof.
  induction s as [|c s IH]; simpl; [reflexivity|].
  destruct (p c); [exact IH | discriminate].
Qed.

Lemma dropWhile_keep p c s :
  p c = false -> dropWhile p (c :: s) = c :: s.
Proof. intros Hc. simpl. now rewrite Hc. Qed.

Lemma dropWhile_idem p s :
  dropWhile p (dropWhile p s) = dropWhile p s.
Proof.
  destruct (dropWhile_head p s) as [-> | (c & r & -> & Hc)];
    [reflexivity | now apply dropWhile_keep].
Qed.

Lemma dropWhile_snoc p s c :
  p c = false -> dropWhile p (s ++ [c]) = dropWhile p s ++ [c].
Proof.
  intros Hc. induction s as [|d s IH]; simpl.
  - now rewrite Hc.
  - destruct (p d); [exact IH | reflexivity].
Qed.

Lemma trimEnd_idem s : trimEnd (trimEnd s) = trimEnd s.
Proof.
  unfold trimEnd. rewrite rev_involutive, dropWhile_idem. reflexivity.
Qed.

Lemma trimEnd_cons c s :
  is_ws c = false -> trimEnd (c :: s) = c :: trimEnd s.
Proof.
  intros Hc. unfold trimEnd. simpl rev at 2.
  rewrite dropWhile_snoc by assumption.
  rewrite rev_app_distr. reflexivity.
Qed.

Lemma trimEnd_app_ws s t :
  forallb is_ws t = true -> trimEnd (s ++ t) = trimEnd s.
Proof.
  intros Ht. unfold trimEnd. rewrite rev_app_distr.
  rewrite dropWhile_app_all; [reflexivity|].
  rewrite forallb_forall in *. intros c Hc. apply Ht.
  now apply in_rev.
Qed.

Lemma trimEnd_all_ws s : forallb is_ws s = true -> trimEnd s = [].
Proof.
  intros Hs. change s with ([] ++ s). now rewrite trimEnd_app_ws.
Qed.

(** A trimmed string is empty or begins with a unit that is not white
    space, followed by a tail with no trailing white space. *)
Lemma trim_shape s :
  trim s = []
  \/ exists c r, trimStart s = c :: r /\ is_ws c = false
                 /\ trim s = c :: trimEnd r.
Proof.
  unfold trim, trimStart.
  destruct (dropWhile_head is_ws s) as [-> | (c & r & -> & Hc)].
  - now left.
  - right. exists c, r. repeat split; [assumption|].
    now apply trimEnd_cons.
Qed.

Lemma trim_idem s : trim (trim s) = trim s.
Proof.
  destruct (trim_shape s) as [-> | (c & r & _ & Hc & ->)]; [reflexivity|].
  unfold trim at 1. unfold trimStart.
  rewrite dropWhile_keep by assumption.
  rewrite trimEnd_cons by assumption.
  now rewrite trimEnd_idem.
Qed.

Lemma trim_all_ws s : forallb is_ws s = true -> trim s = [].
Proof.
  intros Hs. unfold trim, trimStart. now rewrite dropWhile_all.
Qed.

(** Only white space trims to nothing. *)
Lemma trim_nil_all_ws s : trim s = [] -> forallb is_ws s = true.
Proof.
  intros Hs. apply dropWhile_nil_all.
  destruct (dropWhile_head is_ws s) as [Hd | (c & r & Hd & Hc)];
    [exact Hd|].
  unfold trim, trimStart in Hs. rewrite Hd, trimEnd_cons in Hs by assumption.
  discriminate.
Qed.

(** Leading and trailing white space does not survive trimming. *)
Lemma trim_pad l s r :
  forallb is_ws l = true -> forallb is_ws r = true ->
  trim (l ++ s ++ r) = trim s.
Proof.
  intros Hl Hr. unfold trim, trimStart.
  rewrite dropWhile_app_all by assumption.
  destruct (dropWhile_head is_ws s) as [Hs | (c & t & Hs & Hc)].
  - rewrite Hs. simpl.
    assert (forallb is_ws s = true) as Hall by now apply dropWhile_nil_all.
    rewrite dropWhile_app_all by assumption.
    rewrite dropWhile_all by assumption. reflexivity.
  - assert (dropWhile is_ws (s ++ r) = dropWhile is_ws s ++ r) as ->.
    { clear -Hs. revert Hs. induction s as [|d s IH]; simpl; [discriminate|].
      destruct (is_ws d); [exact IH | reflexivity]. }
    now apply trimEnd_app_ws.
Qed.

Lemma startsWith_spec t s :
  startsWith t s = true <-> exists post, t = s ++ post.
Proof.
  revert t. induction s as [|c s IH]; intros t; simpl.
  - split; [intros _; now exists t | intros _; now destruct t].
  - destruct t as [|d t].
    + split; [discriminate | intros [post H]; discriminate].
    + simpl. rewrite andb_true_iff, N.eqb_eq, IH. split.
      * intros [-> [post ->]]. now exists post.
      * intros [post H]. injection H as -> ->. split; [reflexivity|].
        now exists post.
Qed.

(** [includes] is the substring test. *)
Lemma includes_spec t s :
  includes t s = true <-> exists pre post, t = pre ++ s ++ post.
Proof.
  induction t as [|d t IH].
  - cbn [includes]. rewrite orb_false_r, startsWith_spec. split.
    + intros [post H]. now exists [], post.
    + intros (pre & post & H). destruct pre; [now exists post|discriminate].
  - cbn [includes]. rewrite orb_true_iff, startsWith_spec, IH. split.
    + intros [[post H] | (pre & post & H)].
      * now exists [], post.
      * exists (d :: pre), post. simpl. now rewrite H.
    + intros (pre & post & H). destruct pre as [|e pre]; simpl in H.
      * left. now exists post.
      * right. injection H as -> ->. now exists pre, post.
Qed.

Lemma includes_nil t : includes t [] = true.
Proof. destruct t; reflexivity. Qed.

Lemma str_eqb_eq s t : str_eqb s t = true <-> s = t.
Proof.
  revert t. induction s as [|c s IH]; intros [|d t]; simpl;
    try (split; [discriminate|discriminate]); [tauto|].
  rewrite andb_true_iff, N.eqb_eq, IH. split.
  - now intros [-> ->].
  - intros H. injection H as -> ->. tauto.
Qed.

Lemma nonempty_true s : nonempty s = true <-> s <> [].
Proof. destruct s; simpl; split; congruence. Qed.

Lemma or_default_self s : or_default s [] = s.
Proof. destruct s; reflexivity. Qed.

End StringFacts.

(** ** The filtered view *)

Section FilterFacts.

Variable A : Type.
Implicit Types (f : A -> bool) (l : list A).

Lemma filter_sublist f l : List.filter f l `sublist_of` l.
Proof.
  induction l as [|x l IH]; simpl; [constructor|].
  destruct (f x); now constructor.
Qed.

Lemma filter_idem f l : List.filter f (List.filter f l) = List.filter f l.
Proof.
  induction l as [|x l IH]; simpl; [reflexivity|].
  destruct (f x) eqn:Hx; simpl; [rewrite Hx; now f_equal | exact IH].
Qed.

Lemma filter_all f l :
  (forall x, f x = true) -> List.filter f l = l.
Proof.
  intros Hf. induction l as [|x l IH]; simpl; [reflexivity|].
  rewrite Hf. now f_equal.
Qed.

Lemma filter_length_le f l : length (List.filter f l) <= length l.
Proof.
  induction l as [|x l IH]; simpl; [lia|].
  destruct (f x); simpl; lia.
Qed.

Lemma filter_map_swap (B : Type) (g : A -> B) (p : B -> bool) l :
  List.filter p (map g l) = map g (List.filter (fun x => p (g x)) l).
Proof.
  induction l as [|x l IH]; simpl; [reflexivity|].
  destruct (p (g x)); simpl; now rewrite IH.
Qed.

End FilterFacts.

Lemma filtered_unfold qs qry :
  filtered qs qry = List.filter (fun q => includes (haystack q) (trim qry)) qs.
Proof.
  unfold filtered, haystack. apply filter_ext. intros q.
  now rewrite or_default_self.
Qed.

Lemma filtered_trim qs qry : filtered qs (trim qry) = filtered qs qry.
Proof. rewrite !filtered_unfold, trim_idem. reflexivity. Qed.

Lemma filtered_blank qs qry : trim qry = [] -> filtered qs qry = qs.
Proof.
  intros H. rewrite filtered_unfold, H. apply filter_all.
  intros q. apply includes_nil.
Qed.

(** C6, as the specification words it, fails: the filter does not test the
    query against text immediately followed by author.  The quote with text
    ab and author cd contains bc in that concatenation, yet the view for the
    query bc is empty. *)
Lemma C6_counterexample :
  Spec.filter_by (u "bc") [mkQuote (u "ab") (u "cd")]
    = [mkQuote (u "ab") (u "cd")]
  /\ filtered [mkQuote (u "ab") (u "cd")] (u "bc") = []
  /\ filtered [mkQuote (u "ab") (u "cd")] (u "bc")
       <> Spec.filter_by (u "bc") [mkQuote (u "ab") (u "cd")].
Proof.
  split; [|split]; vm_compute; [reflexivity | reflexivity | discriminate].
Qed.

(** C6 (amended): for every quote collection and every query, the filtered
    view keeps exactly the quotes for which the trimmed query occurs, code
    unit for code unit, in the quote's text followed by one space and its
    author; the view is a subsequence of the collection in the same relative
    order, the empty query keeps everything, and filtering the view again
    with the same query changes nothing. *)
Theorem C6_filter_substring_subsequence :
  forall (qs : list Quote) (qry : jsstring),
    (forall q, In q (filtered qs qry)
               <-> In q qs
                   /\ exists pre post,
                        text q ++ u " " ++ author q
                        = pre ++ trim qry ++ post)
    /\ filtered qs qry `sublist_of` qs
    /\ filtered qs [] = qs
    /\ filtered (filtered qs qry) qry = filtered qs qry.
Proof.
  intros qs qry. split; [|split; [|split]].
  - intros q. rewrite filtered_unfold, filter_In.
    unfold haystack. now rewrite includes_spec.
  - apply filter_sublist.
  - now apply filtered_blank.
  - rewrite !filtered_unfold. apply filter_idem.
Qed.

(** C9: the query is trimmed before matching, so filtering by a query and by
    its trimmed form agree; a query of white space only keeps every quote;
    and white space around a query never changes the view. *)
Theorem C9_query_trimmed_before_matching :
  forall (qs : list Quote) (qry : jsstring),
    filtered qs qry = filtered qs (trim qry)
    /\ (forallb is_ws qry = true -> filtered qs qry = qs)
    /\ (forall l r : jsstring,
          forallb is_ws l = true -> forallb is_ws r = true ->
          filtered qs (l ++ qry ++ r) = filtered qs qry).
Proof.
  intros qs qry. split; [|split].
  - symmetry. apply filtered_trim.
  - intros Hws. apply filtered_blank. now apply trim_all_ws.
  - intros l r Hl Hr. rewrite !filtered_unfold.
    now rewrite trim_pad.
Qed.

(** C9 at work: three quotes, the query sample wrapped in a space, a tab and
    a line feed, and a query of two spaces. *)
Lemma C9_witness :
  forallb is_ws (u "  ") = true
  /\ filtered [mkQuote (u "a sample") (u "x"); mkQuote (u "other") (u "y")]
              (u "  ")
     = [mkQuote (u "a sample") (u "x"); mkQuote (u "other") (u "y")]
  /\ filtered [mkQuote (u "a sample") (u "x"); mkQuote (u "other") (u "y")]
              ([32; 9]%N ++ u "sample" ++ [10]%N)
     = filtered [mkQuote (u "a sample") (u "x"); mkQuote (u "other") (u "y")]
                (u "sample").
Proof.
  split; [reflexivity|]. split.
  - apply (C9_query_trimmed_before_matching
             [mkQuote (u "a sample") (u "x"); mkQuote (u "other") (u "y")]
             (u "  ")). reflexivity.
  - apply (C9_query_trimmed_before_matching
             [mkQuote (u "a sample") (u "x"); mkQuote (u "other") (u "y")]
             (u "sample")); reflexivity.
Defined.

(** ** The import parser *)

Lemma mapM_normal_map (A B : Type) (f : A -> completion B) (g : A -> B)
    (l : list A) :
  Forall (fun x => f x = Normal (g x)) l -> mapM f l = Normal (map g l).
Proof.
  induction 1 as [|x l Hx _ IH]; simpl; [reflexivity|].
  now rewrite Hx, IH.
Qed.

Lemma Exists_equiv (A : Type) (P Q : A -> Prop) (l : list A) :
  (forall x, P x <-> Q x) -> Exists P l <-> Exists Q l.
Proof.
  intros HPQ. split; intros HE; eapply Exists_impl; try exact HE;
    intros x Hx; now apply HPQ.
Qed.

(** [a.map(f)] throws exactly when [f] throws on some element. *)
Lemma mapM_throw_iff (A B : Type) (f : A -> completion B) (l : list A) :
  (exists e, mapM f l = Throw e) <-> Exists (fun x => exists e, f x = Throw e) l.
Proof.
  induction l as [|x l IH]; simpl.
  - split; [intros [e He]; discriminate | intros HE; inversion HE].
  - rewrite Exists_cons, <- IH. destruct (f x) as [y|e] eqn:Hx; simpl.
    + destruct (mapM f l) as [ys|e']; simpl.
      * split; [intros [e He]; discriminate|].
        intros [[e He] | [e He]]; discriminate.
      * split; [intros _; right; now exists e' | intros _; now exists e'].
    + split; [intros _; left; now exists e | intros _; now exists e].
Qed.

(** Every result of a successful [a.map(f)] is the image of an element. *)
Lemma mapM_normal_image (A B : Type) (f : A -> completion B) (l : list A)
    (ys : list B) :
  mapM f l = Normal ys -> Forall (fun y => exists x, f x = Normal y) ys.
Proof.
  revert ys. induction l as [|x l IH]; simpl; intros ys Hys.
  - injection Hys as <-. constructor.
  - destruct (f x) as [y|e] eqn:Hx; simpl in Hys; [|discriminate].
    destruct (mapM f l) as [zs|e]; simpl in Hys; [|discriminate].
    injection Hys as <-. constructor; [now exists x | now apply IH].
Qed.

Lemma call_toString_or_else (v : option json) (d : jsstring) :
  call_toString (or_else v d) = ToString (or_else v d).
Proof.
  destruct v as [x|]; simpl; [|reflexivity].
  destruct x; simpl; try reflexivity.
  - destruct b; reflexivity.
  - destruct (str_eqb repr (u "0")); reflexivity.
  - destruct s; reflexivity.
Qed.

(** A falsy or missing field never makes the conversion throw; a truthy one
    throws when its own conversion does. *)
Lemma or_else_throws (v : option json) (d : jsstring) :
  (exists e, ToString (or_else v d) = Throw e)
  <-> exists x, v = Some x /\ truthy x = true /\ Spec.unprintable x.
Proof.
  unfold Spec.unprintable. destruct v as [x|]; simpl.
  - destruct (truthy x) eqn:Hx.
    + split; [intros He; now exists x|].
      intros (y & Hy & _ & He). now injection Hy as <-.
    + split; [intros [e He]; discriminate|].
      intros (y & Hxy & Hy & _). injection Hxy as <-. congruence.
  - split; [intros [e He]; discriminate | intros (y & Hy & _); discriminate].
Qed.

(** Converting an array converts its elements in turn, [null] elements
    giving the empty string, and joins the pieces with commas. *)
Lemma ToString_array (l : list json) :
  ToString (JArr l)
  = cbind (mapM (fun x => match x with
                          | JNull => Normal []
                          | _ => ToString x
                          end) l)
          (fun pieces => Normal (join (u ",") pieces)).
Proof.
  cbn [ToString]. f_equal.
  induction l as [|x l IH]; [reflexivity|].
  cbn [mapM]. now rewrite <- IH.
Qed.

(** Which values cannot be converted: an object with an own property named
    toString, and an array that holds such a value at any depth. *)
Lemma unprintable_array (l : list json) :
  Spec.unprintable (JArr l) <-> Exists Spec.unprintable l.
Proof.
  unfold Spec.unprintable. rewrite ToString_array.
  rewrite <- (Exists_equiv l
                (P := fun x => exists e,
                        match x with
                        | JNull => Normal []
                        | _ => ToString x
                        end = Throw e)).
  - rewrite <- mapM_throw_iff.
    destruct (mapM _ l) as [pieces|e]; simpl.
    + split; intros [e He]; discriminate.
    + split; intros _; now exists e.
  - intros x. destruct x; try reflexivity.
    split; intros [e He]; discriminate.
Qed.

Lemma unprintable_object (props : list (jsstring * json)) :
  Spec.unprintable (JObj props) <-> get_own props (u "toString") <> None.
Proof.
  unfold Spec.unprintable. cbn [ToString].
  destruct (get_own props (u "toString")) as [v|].
  - split; [discriminate | intros _; now exists TypeError].
  - split; [intros [e He]; discriminate | congruence].
Qed.

(** The text of a coerced element is a trimmed string. *)
Lemma json_item_text (i : json) (q : Quote) :
  json_item i = Normal q -> exists raw, text q = trim raw.
Proof.
  unfold json_item. destruct (get_field i (u "text")) as [t|]; simpl; [|discriminate].
  destruct (call_toString (or_else t [])) as [ts|]; simpl; [|discriminate].
  destruct (get_field i (u "author")) as [a|]; simpl; [|discriminate].
  destruct (call_toString (or_else a UNKNOWN)) as [az|]; simpl; [|discriminate].
  intros Hq. injection Hq as <-. now exists ts.
Qed.

Lemma json_item_throws (i : json) :
  (exists e, json_item i = Throw e) <-> Spec.item_rejected i.
Proof.
  unfold Spec.item_rejected, Spec.bad_field, json_item.
  destruct i as [|b|r|v|l|props]; simpl;
    try (split; [intros [e He]; discriminate|];
         intros [Hn | [(p & x & Hp & _) | (p & x & Hp & _)]]; discriminate).
  - split; [now left | intros _; now exists TypeError].
  - rewrite !call_toString_or_else.
    pose proof (or_else_throws (get_own props (u "text")) []) as Ht.
    pose proof (or_else_throws (get_own props (u "author")) UNKNOWN) as Ha.
    destruct (ToString (or_else (get_own props (u "text")) [])) as [ts|et];
      simpl.
    + destruct (ToString (or_else (get_own props (u "author")) UNKNOWN))
        as [az|ea]; simpl.
      * split; [intros [e He]; discriminate|].
        intros [Hn | [(p & x & Hp & Hx) | (p & x & Hp & Hx)]];
          [discriminate | |]; injection Hp as <-.
        -- destruct Ht as [_ Ht]. destruct Ht as [e He]; [now exists x|].
           discriminate.
        -- destruct Ha as [_ Ha]. destruct Ha as [e He]; [now exists x|].
           discriminate.
      * split; [|intros _; now exists ea].
        intros _. right. right. destruct Ha as [Ha _].
        destruct Ha as (x & Hx); [now exists ea|]. now exists props, x.
    + split; [|intros _; now exists et].
      intros _. right. left. destruct Ht as [Ht _].
      destruct Ht as (x & Hx); [now exists et|]. now exists props, x.
Qed.

(** Induction over a value and, for an array, over its elements. *)
Lemma json_nested_ind (P : json -> Prop) :
  P JNull ->
  (forall b, P (JBool b)) ->
  (forall repr, P (JNum repr)) ->
  (forall str, P (JStr str)) ->
  (forall elems, Forall P elems -> P (JArr elems)) ->
  (forall props, P (JObj props)) ->
  forall v, P v.
Proof.
  intros Hnull Hbool Hnum Hstr Harr Hobj. fix IH 1.
  intros [|b|repr|str|elems|props];
    [exact Hnull | apply Hbool | apply Hnum | apply Hstr | | apply Hobj].
  apply Harr. induction elems as [|x l IHl].
  - apply List.Forall_nil.
  - apply List.Forall_cons; [apply IH | exact IHl].
Qed.

(** A value with a string form converts to it, without throwing. *)
Lemma ToString_string_of (v : json) :
  Spec.convertible v = true -> ToString v = Normal (Spec.string_of v).
Proof.
  induction v as [|b|repr|str|elems IH|props] using json_nested_ind;
    try reflexivity.
  - intros Hc. rewrite ToString_array.
    rewrite (mapM_normal_map
               (g := fun x => match x with
                              | JNull => []
                              | _ => Spec.string_of x
                              end)); [reflexivity|].
    cbn [Spec.convertible] in Hc. rewrite forallb_forall in Hc.
    rewrite List.Forall_forall in IH. apply List.Forall_forall.
    intros x Hx. specialize (IH x Hx (Hc x Hx)).
    destruct x; try exact IH. reflexivity.
  - cbn [Spec.convertible ToString].
    destruct (get_own props (u "toString")); [discriminate | reflexivity].
Qed.

Lemma falsy_truthy (v : json) : Spec.falsy v = negb (truthy v).
Proof.
  destruct v; simpl; try reflexivity. now rewrite negb_involutive.
Qed.

(** [x || d] keeps a given field and puts the literal in place of a field
    that is not given. *)
Lemma or_else_given (props : list (jsstring * json)) (key d : jsstring) :
  or_else (get_own props key) d
  = match Spec.given (JObj props) key with
    | Some v => v
    | None => JStr d
    end.
Proof.
  unfold Spec.given, Spec.raw_field, or_else.
  destruct (get_own props key) as [v|]; [|reflexivity].
  rewrite falsy_truthy. now destruct (truthy v).
Qed.

(** On an element of an importable array the coercion follows the rule of
    the parser and does not throw. *)
Lemma json_item_import_element (i : json) :
  Spec.import_element i -> json_item i = Normal (Spec.json_candidate i).
Proof.
  intros ([props ->] & Ht & Ha).
  unfold json_item, Spec.json_candidate, Spec.json_text, Spec.json_author,
    Spec.claimed_text.
  cbn [get_field cbind]. rewrite !call_toString_or_else, !or_else_given.
  unfold Spec.has_string_form in Ht, Ha.
  destruct (Spec.given (JObj props) (u "text")) as [t|];
    destruct (Spec.given (JObj props) (u "author")) as [a|];
    rewrite ?(ToString_string_of Ht), ?(ToString_string_of Ha);
    reflexivity.
Qed.

Lemma csv_row_spec (row : list jsstring) :
  csv_row row = Spec.csv_candidate row.
Proof.
  unfold csv_row, Spec.csv_candidate, Spec.candidate. f_equal.
  - destruct (row !! 0%nat) as [[|c t]|]; reflexivity.
  - destruct (row !! 1%nat) as [[|c t]|]; reflexivity.
Qed.

(** No name ends in both extensions. *)
Lemma csv_not_json (nm : jsstring) :
  endsWith nm (u ".csv") = true -> endsWith nm (u ".json") = false.
Proof.
  unfold endsWith. destruct (rev nm) as [|c r]; [discriminate|].
  change (rev (u ".csv")) with ([118; 115; 99; 46]%N).
  change (rev (u ".json")) with ([110; 111; 115; 106; 46]%N).
  cbn [startsWith]. intros [Hc _]%andb_prop. apply N.eqb_eq in Hc as <-.
  reflexivity.
Qed.

(** Outside the import format: a text that is the number zero is falsy and
    gives no text; an author of white space only is truthy and trims to the
    empty string; a text object with an own toString property makes the
    coercion throw. *)
Example json_item_zero_text :
  json_item (JObj [(u "text", JNum (u "0"))]) = Normal (mkQuote [] UNKNOWN).
Proof. reflexivity. Qed.

Example json_item_blank_author :
  json_item (JObj [(u "text", JStr (u "a")); (u "author", JStr (u "  "))])
  = Normal (mkQuote (u "a") []).
Proof. reflexivity. Qed.

Example json_item_own_toString :
  json_item (JObj [(u "text", JObj [(u "toString", JNum (u "1"))])])
  = Throw TypeError.
Proof. reflexivity. Qed.

Section ImportParser.

Context {host : Host}.
Implicit Types (s : State) (f : File).

Lemma handleFileChange_json s f :
  endsWith (toLowerCase (name f)) (u ".json") = true ->
  handleFileChange (Some f) s
  = (match json_candidates (content f) with
     | Normal l => imported s l None
     | Throw _ => imported s [] (Some MsgInvalidJson)
     end, Normal tt).
Proof.
  intros Hj. unfold handleFileChange, onload, bind, try_catch, lift.
  simpl. rewrite Hj.
  destruct (json_candidates (content f)); reflexivity.
Qed.

Lemma handleFileChange_csv s f :
  endsWith (toLowerCase (name f)) (u ".csv") = true ->
  handleFileChange (Some f) s
  = (imported s (csv_candidates (Papa_parse (content f))) None, Normal tt).
Proof.
  intros Hc. unfold handleFileChange, onload, bind.
  simpl. rewrite (csv_not_json Hc), Hc. reflexivity.
Qed.

Lemma handleFileChange_other s f :
  endsWith (toLowerCase (name f)) (u ".json") = false ->
  endsWith (toLowerCase (name f)) (u ".csv") = false ->
  handleFileChange (Some f) s
  = (imported s [] (Some MsgUnsupportedType), Normal tt).
Proof.
  intros Hj Hc. unfold handleFileChange, onload, bind.
  simpl. rewrite Hj, Hc. reflexivity.
Qed.

(** The import never throws, and touches nothing but the preview batch and
    the import error. *)
Lemma handleFileChange_frame s f :
  exists l e, handleFileChange (Some f) s = (imported s l e, Normal tt).
Proof.
  destruct (endsWith (toLowerCase (name f)) (u ".json")) eqn:Hj.
  - rewrite handleFileChange_json by assumption.
    destruct (json_candidates (content f)); eauto.
  - destruct (endsWith (toLowerCase (name f)) (u ".csv")) eqn:Hc.
    + rewrite handleFileChange_csv by assumption. eauto.
    + rewrite handleFileChange_other by assumption. eauto.
Qed.

(** When the JSON path throws. *)
Lemma json_candidates_throws (txt : jsstring) :
  (exists e, json_candidates txt = Throw e)
  <-> JSON_parse txt = None
      \/ (exists v, JSON_parse txt = Some v /\ forall data, v <> JArr data)
      \/ (exists data, JSON_parse txt = Some (JArr data)
                       /\ Exists Spec.item_rejected data).
Proof.
  unfold json_candidates. destruct (JSON_parse txt) as [v|]; simpl.
  - assert ((exists data, v = JArr data) \/ forall data, v <> JArr data)
      as [[data ->] | Hn].
    { destruct v; try (right; discriminate). left. eauto. }
    + pose proof (mapM_throw_iff json_item data) as Hm.
      rewrite (Exists_equiv data json_item_throws) in Hm.
      destruct (mapM json_item data) as [parsed|e]; simpl.
      * split; [intros [e He]; discriminate|].
        intros [Hp | [(v & Hv & Hna) | (d & Hd & HE)]]; [discriminate | |].
        -- injection Hv as <-. now elim (Hna data).
        -- injection Hd as <-. apply Hm in HE as [e He]. discriminate.
      * split; [|intros _; now exists e].
        intros _. right. right. exists data. split; [reflexivity|].
        apply Hm. now exists e.
    + split.
      * intros _. right. left. now exists v.
      * intros _. destruct v; try (eexists; reflexivity).
        now elim (Hn elems).
  - split; [now left | intros _; now exists SyntaxError].
Qed.

End ImportParser.

(** C1, as the specification words it, fails: for the array whose single
    element has the number zero as text and x as author, converting the
    text to a string gives the digit 0, which is not empty, so the claim
    keeps the element; the parser takes the zero for a missing text and
    keeps nothing. *)
Lemma C1_counterexample :
  @JSON_parse zero_text_host (content zero_text_file)
  = Some (JArr zero_text_items)
  /\ Spec.claimed_candidates zero_text_items = [mkQuote (u "0") (u "x")]
  /\ @handleFileChange zero_text_host (Some zero_text_file) initial_state
     = (imported initial_state [] None, Normal tt)
  /\ previewList
       (exec (@handleFileChange zero_text_host (Some zero_text_file))
             initial_state)
     <> Spec.claimed_candidates zero_text_items.
Proof.
  split; [reflexivity|]. split; [reflexivity|]. split; [reflexivity|].
  vm_compute. discriminate.
Qed.

(** C1 (amended): for a file whose lower-cased name ends in .json and whose
    content parses to an array of objects whose text and author, when
    given, have a string form, the import leaves no error and a preview
    batch that holds, in array order, exactly the elements whose text is
    given (neither missing nor null, false, zero or the empty string) and
    not empty once converted to string and trimmed; each candidate has that
    trimmed text, and as author the author converted to string and trimmed
    or, when the author is not given, the sentinel. *)
Theorem C1_json_import_candidates :
  forall (host : Host) (s : State) (f : File) (data : list json),
    endsWith (toLowerCase (name f)) (u ".json") = true ->
    JSON_parse (content f) = Some (JArr data) ->
    Forall Spec.import_element data ->
    handleFileChange (Some f) s
    = (imported s
         (map Spec.json_candidate
            (List.filter (fun i => nonempty (Spec.json_text i)) data))
         None,
       Normal tt).
Proof.
  intros host s f data Hj Hp Hd.
  rewrite handleFileChange_json by assumption.
  unfold json_candidates. rewrite Hp. cbn [cbind].
  rewrite (mapM_normal_map (g := Spec.json_candidate)).
  - cbn [cbind]. now rewrite filter_map_swap.
  - eapply Forall_impl; [exact Hd|]. apply json_item_import_element.
Qed.

(** C1 on the scenario of the specification: three elements, of which only
    the first has text; its author is missing. *)
Lemma C1_witness :
  endsWith (@toLowerCase scenario_host (name scenario_json_file)) (u ".json")
    = true
  /\ @JSON_parse scenario_host (content scenario_json_file)
     = Some (JArr scenario_json_items)
  /\ Forall Spec.import_element scenario_json_items
  /\ previewList
       (exec (@handleFileChange scenario_host (Some scenario_json_file))
             initial_state)
     = [mkQuote (u "a") UNKNOWN].
Proof.
  assert (Forall Spec.import_element scenario_json_items) as Hitems.
  { repeat (apply List.Forall_cons;
              [split; [now eexists | split; vm_compute; auto]|]).
    apply List.Forall_nil. }
  split; [reflexivity|]. split; [reflexivity|]. split; [exact Hitems|].
  unfold exec.
  rewrite (@C1_json_import_candidates scenario_host initial_state
             scenario_json_file scenario_json_items eq_refl eq_refl Hitems).
  reflexivity.
Defined.

(** The rule on values that are not strings: a number keeps its rendering,
    true gives its name, an array is joined, and an empty array, being
    given, is an author that trims to nothing rather than the sentinel. *)
Example json_candidate_number :
  Spec.json_candidate
    (JObj [(u "text", JNum (u "42")); (u "author", JBool true)])
  = mkQuote (u "42") (u "true").
Proof. reflexivity. Qed.

Example json_candidate_arrays :
  Spec.json_candidate
    (JObj [(u "text", JArr [JStr (u "a"); JNull; JNum (u "1")]);
           (u "author", JArr [])])
  = mkQuote (u "a,,1") [].
Proof. reflexivity. Qed.

(** C2: for a file whose lower-cased name ends in .csv, the import never
    fails; with the rows the CSV reader returns, the preview batch holds, in
    row order, one candidate for every row whose trimmed first column is not
    empty, built from the first two columns by the same trimming and
    defaulting rule as the JSON path; no candidate has empty text, and there
    are at most as many candidates as rows.  The three-line scenario input
    gives the two candidates hello/world and foo/sentinel. *)
Theorem C2_csv_import_candidates :
  forall (host : Host) (s : State) (f : File),
    endsWith (toLowerCase (name f)) (u ".csv") = true ->
    handleFileChange (Some f) s
    = (imported s
         (map Spec.csv_candidate
            (List.filter
               (fun row => nonempty (Spec.text_of (row !! 0%nat)))
               (Papa_parse (content f))))
         None,
       Normal tt)
    /\ (forall row : list jsstring, row !! 0%nat = Some ([] : jsstring) ->
          nonempty (Spec.text_of (row !! 0%nat)) = false)
    /\ length (previewList (exec (handleFileChange (Some f)) s))
       <= length (Papa_parse (content f))
    /\ csv_candidates (papa_plain scenario_csv_text)
       = [mkQuote (u "hello") (u "world"); mkQuote (u "foo") UNKNOWN].
Proof.
  intros host s f Hc.
  assert (csv_candidates (Papa_parse (content f))
          = map Spec.csv_candidate
              (List.filter
                 (fun row => nonempty (Spec.text_of (row !! 0%nat)))
                 (Papa_parse (content f)))) as Heq.
  { unfold csv_candidates.
    rewrite (map_ext csv_row Spec.csv_candidate csv_row_spec).
    now rewrite filter_map_swap. }
  split; [|split; [|split]].
  - rewrite handleFileChange_csv by assumption. now rewrite Heq.
  - intros row ->. reflexivity.
  - unfold exec. rewrite handleFileChange_csv by assumption. simpl.
    unfold csv_candidates.
    etransitivity; [apply filter_length_le|]. now rewrite length_map.
  - vm_compute. reflexivity.
Qed.

(** C2 on the scenario file, read by the plain CSV reader. *)
Lemma C2_witness :
  endsWith (@toLowerCase scenario_host (name scenario_csv_file)) (u ".csv")
    = true
  /\ previewList
       (exec (@handleFileChange scenario_host (Some scenario_csv_file))
             initial_state)
     = [mkQuote (u "hello") (u "world"); mkQuote (u "foo") UNKNOWN].
Proof.
  split; [reflexivity|].
  unfold exec.
  destruct (@C2_csv_import_candidates scenario_host initial_state
              scenario_csv_file eq_refl) as [-> _].
  vm_compute. reflexivity.
Defined.

(** C3, as the specification words it, fails: a .json file whose content
    parses as the array holding the single element null is rejected with
    the format error, although its content does parse as a JSON array. *)
Lemma C3_counterexample :
  importError
    (exec (@handleFileChange scenario_host (Some null_item_file))
          initial_state)
  = Some MsgInvalidJson
  /\ previewList
       (exec (@handleFileChange scenario_host (Some null_item_file))
             initial_state)
     = []
  /\ @JSON_parse scenario_host (content null_item_file) = Some (JArr [JNull])
  /\ ~ @Spec.import_rejected scenario_host null_item_file.
Proof.
  split; [reflexivity|]. split; [reflexivity|]. split; [reflexivity|].
  intros [[Hj _] | [_ Hn]].
  - vm_compute in Hj. discriminate.
  - now apply (Hn [JNull]).
Qed.

(** C3 (amended): the import always returns, never throws, and leaves either
    a candidate list with no error or an error with an empty candidate list.
    The unsupported-type error arises exactly when the lower-cased name ends
    in neither .json nor .csv.  The format error arises exactly when the
    name ends in .json and the content fails to parse, parses to something
    that is not an array, or parses to an array with an element that cannot
    be coerced (a null element, or a truthy text or author whose conversion
    to a string throws).  There is no other error. *)
Theorem C3_import_total_and_errors :
  forall (host : Host) (s : State) (f : File),
    (exists l e,
        handleFileChange (Some f) s = (imported s l e, Normal tt)
        /\ (e = None \/ (l = [] /\ e <> None)))
    /\ (importError (exec (handleFileChange (Some f)) s)
          = Some MsgUnsupportedType
        <-> endsWith (toLowerCase (name f)) (u ".json") = false
            /\ endsWith (toLowerCase (name f)) (u ".csv") = false)
    /\ (importError (exec (handleFileChange (Some f)) s)
          = Some MsgInvalidJson
        <-> endsWith (toLowerCase (name f)) (u ".json") = true
            /\ (JSON_parse (content f) = None
                \/ (exists v, JSON_parse (content f) = Some v
                              /\ forall data, v <> JArr data)
                \/ (exists data, JSON_parse (content f) = Some (JArr data)
                                 /\ Exists Spec.item_rejected data)))
    /\ (forall m, importError (exec (handleFileChange (Some f)) s) = Some m ->
          m = MsgUnsupportedType \/ m = MsgInvalidJson).
Proof.
  intros host s f. unfold exec.
  pose proof (json_candidates_throws (content f)) as Hthrow.
  destruct (endsWith (toLowerCase (name f)) (u ".json")) eqn:Hj.
  - rewrite handleFileChange_json by assumption.
    destruct (json_candidates (content f)) as [l|e]; simpl.
    + split; [exists l, None; split; [reflexivity | now left]|].
      split; [split; [discriminate | intros [? _]; discriminate]|].
      split; [|discriminate].
      split; [discriminate|]. intros [_ Hbad].
      apply Hthrow in Hbad as [e He]. discriminate.
    + split; [exists [], (Some MsgInvalidJson); split; [reflexivity|];
              right; split; [reflexivity | discriminate]|].
      split; [split; [discriminate | intros [? _]; discriminate]|].
      split; [|intros m Hm; injection Hm as <-; now right].
      split; [|reflexivity]. intros _. split; [reflexivity|].
      apply Hthrow. now exists e.
  - destruct (endsWith (toLowerCase (name f)) (u ".csv")) eqn:Hc.
    + rewrite handleFileChange_csv by assumption. simpl.
      split; [eexists _, None; split; [reflexivity | now left]|].
      split; [split; [discriminate | intros [_ ?]; discriminate]|].
      split; [|discriminate].
      split; [discriminate | intros [? _]; discriminate].
    + rewrite handleFileChange_other by assumption. simpl.
      split; [exists [], (Some MsgUnsupportedType); split; [reflexivity|];
              right; split; [reflexivity | discriminate]|].
      split; [split; [now split | reflexivity]|].
      split; [|intros m Hm; injection Hm as <-; now left].
      split; [discriminate | intros [? _]; discriminate].
Qed.

(** C7, as the specification words it, fails: importing a file with no
    candidates from the Empty state shows nothing to the user, neither an
    alert nor an import error. *)
Lemma C7_counterexample :
  workflow_of initial_state = Empty
  /\ previewList
       (exec (@handleFileChange scenario_host (Some empty_array_file))
             initial_state)
     = []
  /\ alerts
       (exec (@handleFileChange scenario_host (Some empty_array_file))
             initial_state)
     = []
  /\ importError
       (exec (@handleFileChange scenario_host (Some empty_array_file))
             initial_state)
     = None
  /\ ~ In MsgNothingToImport
         (alerts
            (exec (@handleFileChange scenario_host (Some empty_array_file))
                  initial_state)).
Proof.
  repeat (split; [reflexivity|]). intros [].
Qed.

(** ** Commit and manual add *)

Lemma workflow_previewing (s : State) :
  workflow_of s = Previewing <-> loading s = false /\ previewList s <> [].
Proof.
  unfold workflow_of. destruct (loading s), (previewList s); split;
    try discriminate; try (intros [? ?]; congruence); now split.
Qed.

Lemma workflow_empty (s : State) :
  workflow_of s = Empty <-> loading s = false /\ previewList s = [].
Proof.
  unfold workflow_of. destruct (loading s), (previewList s); split;
    try discriminate; try (intros [? ?]; congruence); now split.
Qed.

Lemma length_eqb_nil (A : Type) (l : list A) :
  l <> [] -> Nat.eqb (length l) 0 = false.
Proof. destruct l; [congruence | reflexivity]. Qed.

(** Commit on an empty preview batch: one alert, nothing else. *)
Lemma confirmImport_nothing (supabase : option Remote) (s : State) :
  previewList s = [] ->
  confirmImport supabase s
  = (mkState (quotes s) (query s) (previewList s) (importError s)
             (loading s) (alerts s ++ [MsgNothingToImport]), Normal tt).
Proof.
  intros Hp. unfold confirmImport.
  replace (Nat.eqb (length (previewList s)) 0) with true
    by now rewrite Hp.
  reflexivity.
Qed.

(** Commit without a remote. *)
Lemma confirmImport_local (s : State) :
  previewList s <> [] ->
  confirmImport None s
  = (mkState (previewList s ++ quotes s) (query s) [] (importError s) false
             (alerts s ++ [MsgAddedLocally (length (previewList s))]),
     Normal tt).
Proof.
  intros Hp. unfold confirmImport. rewrite (length_eqb_nil Hp). reflexivity.
Qed.

(** Commit with a remote, by what the remote answers. *)
Lemma confirmImport_remote (db : Remote) (s : State) :
  previewList s <> [] ->
  confirmImport (Some db) s
  = (match insert db (payload_of (previewList s)) with
     | Normal (Some _) =>
         mkState (quotes s) (query s) (previewList s) (importError s) false
                 (alerts s ++ [MsgSaveError])
     | Throw _ =>
         mkState (quotes s) (query s) (previewList s) (importError s) false
                 (alerts s ++ [MsgConnectionError])
     | Normal None =>
         match select_quotes db 500 with
         | Normal (Some rows) =>
             mkState (map row_quote rows) (query s) [] (importError s) false
                     (alerts s
                      ++ [MsgImported (length (payload_of (previewList s)))])
         | _ =>
             mkState (quotes s) (query s) (previewList s) (importError s)
                     false
                     ((alerts s
                       ++ [MsgImported (length (payload_of (previewList s)))])
                      ++ [MsgConnectionError])
         end
     end, Normal tt).
Proof.
  intros Hp. unfold confirmImport. rewrite (length_eqb_nil Hp).
  unfold bind, try_catch, lift. simpl.
  destruct (insert db (payload_of (previewList s))) as [[err|]|e]; simpl;
    try reflexivity.
  destruct (select_quotes db 500) as [[rows|]|e]; reflexivity.
Qed.

(** Commit with a remote that accepts the batch and answers the re-fetch:
    the workflow is Empty and the collection is what the remote returned. *)
Lemma confirmImport_remote_success (db : Remote) (s : State)
    (rows : list Row) :
  workflow_of s = Previewing ->
  insert db (payload_of (previewList s)) = Normal None ->
  select_quotes db 500 = Normal (Some rows) ->
  workflow_of (exec (confirmImport (Some db)) s) = Empty
  /\ quotes (exec (confirmImport (Some db)) s) = map row_quote rows.
Proof.
  intros [Hl Hp]%workflow_previewing Hi Hs. unfold exec.
  rewrite confirmImport_remote, Hi, Hs by assumption. now split.
Qed.

(** A remote that cannot be reached: the batch stays in preview and the
    connection error is alerted. *)
Example confirmImport_unreachable :
  exec (confirmImport (Some unreachable_remote)) previewing_state
  = mkState [mkQuote (u "old") (u "z")] [] two_quotes None false
            [MsgConnectionError].
Proof. reflexivity. Qed.

(** C4: a commit from Previewing against a failing remote (the insert
    resolves with an error or rejects, or the re-fetch after a successful
    insert fails) returns; the workflow is Previewing again with the same
    preview batch, the quote collection is the same, and the last alert
    shown reports the failure. *)
Theorem C4_commit_failure_keeps_batch :
  forall (db : Remote) (s : State),
    workflow_of s = Previewing ->
    Spec.persistence_fails db (payload_of (previewList s)) ->
    snd (confirmImport (Some db) s) = Normal tt
    /\ workflow_of (exec (confirmImport (Some db)) s) = Previewing
    /\ previewList (exec (confirmImport (Some db)) s) = previewList s
    /\ quotes (exec (confirmImport (Some db)) s) = quotes s
    /\ exists shown m,
         alerts (exec (confirmImport (Some db)) s) = alerts s ++ shown ++ [m]
         /\ (m = MsgSaveError \/ m = MsgConnectionError).
Proof.
  intros db s [Hl Hp]%workflow_previewing Hfail. unfold exec.
  rewrite confirmImport_remote by assumption. simpl.
  assert (forall a, workflow_of
            (mkState (quotes s) (query s) (previewList s) (importError s)
                     false a) = Previewing) as Hw.
  { intros a. apply workflow_previewing. now split. }
  destruct Hfail as [[err ->] | [[e ->] | [-> Hsel]]].
  - repeat (split; [easy|]). exists [], MsgSaveError. split; [easy | now left].
  - repeat (split; [easy|]). exists [], MsgConnectionError.
    split; [easy | now right].
  - assert (exists e', select_quotes db 500 = e'
                       /\ forall rows, e' <> Normal (Some rows))
      as (e' & -> & He').
    { destruct Hsel as [-> | [e ->]]; eexists; split; try reflexivity;
        discriminate. }
    destruct e' as [[rows|]|e]; [now elim (He' rows) | |];
      (repeat (split; [easy|]);
       exists [MsgImported (length (payload_of (previewList s)))],
              MsgConnectionError;
       split; [now rewrite <- app_assoc | now right]).
Qed.

(** C4 at work: two candidates in preview, a remote whose insert resolves
    with an error. *)
Lemma C4_witness :
  workflow_of previewing_state = Previewing
  /\ Spec.persistence_fails failing_remote
       (payload_of (previewList previewing_state))
  /\ previewList (exec (confirmImport (Some failing_remote)) previewing_state)
     = two_quotes
  /\ quotes (exec (confirmImport (Some failing_remote)) previewing_state)
     = [mkQuote (u "old") (u "z")].
Proof.
  assert (Spec.persistence_fails failing_remote
            (payload_of (previewList previewing_state))) as Hf.
  { left. now exists RemoteError. }
  split; [reflexivity|]. split; [exact Hf|].
  destruct (@C4_commit_failure_keeps_batch failing_remote previewing_state
              eq_refl Hf) as (_ & _ & -> & -> & _).
  split; reflexivity.
Defined.

(** C5: a commit from Previewing with no remote configured returns and ends
    in the Empty state with the preview batch cleared; the quote collection
    is the batch followed by the prior collection, so every candidate sits
    once at its own position ahead of the prior quotes; one alert tells how
    many were added. *)
Theorem C5_local_commit_prepends_batch :
  forall (s : State),
    workflow_of s = Previewing ->
    snd (confirmImport None s) = Normal tt
    /\ workflow_of (exec (confirmImport None) s) = Empty
    /\ previewList (exec (confirmImport None) s) = []
    /\ quotes (exec (confirmImport None) s) = previewList s ++ quotes s
    /\ (forall (i : nat) (q : Quote),
          previewList s !! i = Some q ->
          quotes (exec (confirmImport None) s) !! i = Some q)
    /\ (forall i : nat,
          quotes (exec (confirmImport None) s) !! (length (previewList s) + i)
          = quotes s !! i)
    /\ length (quotes (exec (confirmImport None) s))
       = length (previewList s) + length (quotes s)
    /\ alerts (exec (confirmImport None) s)
       = alerts s ++ [MsgAddedLocally (length (previewList s))].
Proof.
  intros s [Hl Hp]%workflow_previewing. unfold exec.
  rewrite confirmImport_local by assumption. simpl.
  repeat (split; [easy|]).
  split; [intros i q Hi; now apply lookup_app_l_Some|].
  split; [intros i; now rewrite lookup_app_r, Nat.add_comm, Nat.add_sub by lia|].
  split; [apply length_app | reflexivity].
Qed.

(** C5 at work on the two-candidate preview. *)
Lemma C5_witness :
  workflow_of previewing_state = Previewing
  /\ workflow_of (exec (confirmImport None) previewing_state) = Empty
  /\ quotes (exec (confirmImport None) previewing_state)
     = two_quotes ++ [mkQuote (u "old") (u "z")].
Proof.
  split; [reflexivity|].
  destruct (@C5_local_commit_prepends_batch previewing_state eq_refl)
    as (_ & -> & _ & -> & _).
  split; reflexivity.
Defined.

(** C7 (amended): an import whose file yields no candidates, on the JSON
    path or on the CSV path, sets the preview batch to the empty list,
    whatever batch was held before, and leaves no import error; it shows no
    alert and does not touch the quote collection, so nothing is committed;
    with no commit in flight the workflow is then in the Empty state.  The
    nothing to import alert comes from a commit on an empty preview batch,
    which shows that alert and changes nothing else. *)
Theorem C7_empty_candidates_and_empty_commit :
  forall (host : Host) (supabase : option Remote) (s : State) (f : File),
    ((endsWith (toLowerCase (name f)) (u ".json") = true
      /\ json_candidates (content f) = Normal [])
     \/ (endsWith (toLowerCase (name f)) (u ".csv") = true
         /\ csv_candidates (Papa_parse (content f)) = []) ->
     previewList (exec (handleFileChange (Some f)) s) = []
     /\ importError (exec (handleFileChange (Some f)) s) = None
     /\ alerts (exec (handleFileChange (Some f)) s) = alerts s
     /\ quotes (exec (handleFileChange (Some f)) s) = quotes s
     /\ snd (handleFileChange (Some f) s) = Normal tt
     /\ (loading s = false ->
         workflow_of (exec (handleFileChange (Some f)) s) = Empty))
    /\ (previewList s = [] ->
        confirmImport supabase s
        = (mkState (quotes s) (query s) (previewList s) (importError s)
                   (loading s) (alerts s ++ [MsgNothingToImport]),
           Normal tt)).
Proof.
  intros host supabase s f. split; [|apply confirmImport_nothing].
  intros Hnone.
  assert (handleFileChange (Some f) s = (imported s [] None, Normal tt))
    as Hrun.
  { destruct Hnone as [[Hj Hc] | [Hc Hl]].
    - rewrite handleFileChange_json, Hc by assumption. reflexivity.
    - rewrite handleFileChange_csv, Hl by assumption. reflexivity. }
  unfold exec. rewrite Hrun. cbn [fst snd imported previewList importError
                                  alerts quotes].
  do 5 (split; [reflexivity|]).
  intros Hl. apply workflow_empty. now split.
Qed.

(** C7 at work: the empty-array file imported while two candidates are in
    preview replaces them by the empty batch; and a commit of the empty
    batch shows the alert. *)
Lemma C7_witness :
  previewList previewing_state = two_quotes
  /\ endsWith (@toLowerCase scenario_host (name empty_array_file))
              (u ".json") = true
  /\ @json_candidates scenario_host (content empty_array_file) = Normal []
  /\ previewList
       (exec (@handleFileChange scenario_host (Some empty_array_file))
             previewing_state) = []
  /\ workflow_of
       (exec (@handleFileChange scenario_host (Some empty_array_file))
             previewing_state) = Empty
  /\ alerts (exec (confirmImport None) initial_state) = [MsgNothingToImport].
Proof.
  destruct (@C7_empty_candidates_and_empty_commit scenario_host None
              previewing_state empty_array_file) as [Himport _].
  destruct (@C7_empty_candidates_and_empty_commit scenario_host None
              initial_state empty_array_file) as [_ Hcommit].
  destruct Himport as (Hp & _ & _ & _ & _ & Hw);
    [left; split; reflexivity|].
  split; [reflexivity|]. split; [reflexivity|]. split; [reflexivity|].
  split; [exact Hp|]. split; [apply Hw; reflexivity|].
  unfold exec. rewrite Hcommit; reflexivity.
Defined.

Lemma candidates_trimmed (l : list Quote) :
  (forall q, In q l -> exists raw, text q = trim raw) ->
  Forall (fun q => text q <> [] /\ trim (text q) = text q)
         (List.filter (fun p => nonempty (text p)) l).
Proof.
  intros Hl. apply List.Forall_forall. intros q [Hin Hne]%filter_In.
  split; [now apply nonempty_true|].
  destruct (Hl q Hin) as [raw ->]. apply trim_idem.
Qed.

(** C8: whatever file is imported, every candidate the import puts in the
    preview batch has a text that is not empty and is already trimmed; a
    local commit then hands exactly that batch to the quote collection. *)
Theorem C8_preview_text_nonempty :
  forall (host : Host) (s : State) (f : File),
    Forall (fun q => text q <> [] /\ trim (text q) = text q)
           (previewList (exec (handleFileChange (Some f)) s))
    /\ quotes (exec (confirmImport None) (exec (handleFileChange (Some f)) s))
       = previewList (exec (handleFileChange (Some f)) s) ++ quotes s.
Proof.
  intros host s f. split.
  - unfold exec.
    destruct (endsWith (toLowerCase (name f)) (u ".json")) eqn:Hj.
    + rewrite handleFileChange_json by assumption.
      unfold json_candidates.
      destruct (JSON_parse (content f)) as [v|]; cbn [cbind fst];
        [|constructor].
      destruct v; cbn [cbind fst]; try constructor.
      destruct (mapM json_item elems) as [parsed|e] eqn:Hm;
        cbn [cbind fst]; [|constructor].
      simpl. apply candidates_trimmed. intros q Hq.
      apply mapM_normal_image in Hm.
      rewrite List.Forall_forall in Hm. destruct (Hm q Hq) as [i Hi].
      now apply json_item_text in Hi.
    + destruct (endsWith (toLowerCase (name f)) (u ".csv")) eqn:Hc.
      * rewrite handleFileChange_csv by assumption. simpl.
        apply candidates_trimmed. intros q [row [<- _]]%in_map_iff.
        now eexists.
      * rewrite handleFileChange_other by assumption. constructor.
  - unfold exec.
    destruct (handleFileChange_frame s f) as (l & e & ->). simpl.
    destruct l as [|q l].
    + now rewrite confirmImport_nothing.
    + now rewrite confirmImport_local.
Qed.

(** C10: manual add with missing, empty or white-space-only text returns the
    state as it was, whatever the mode, with no alert.  For any other text
    and no remote configured, the collection gains at its front one record
    whose text is the trimmed text and whose author is the sentinel when the
    author is missing or empty and the trimmed author otherwise; nothing
    else changes. *)
Theorem C10_manual_add :
  forall (supabase : option Remote) (s : State)
         (txt auth : option jsstring),
    (Spec.blank txt -> addManual supabase txt auth s = (s, Normal tt))
    /\ (forall t : jsstring,
          txt = Some t -> forallb is_ws t = false ->
          addManual None txt auth s
          = (mkState (mkQuote (trim t) (Spec.author_of auth) :: quotes s)
                     (query s) (previewList s) (importError s) (loading s)
                     (alerts s),
             Normal tt)
          /\ trim t <> []).
Proof.
  intros supabase s txt auth. split.
  - destruct txt as [t|]; simpl; [|reflexivity].
    intros Hb. now rewrite (trim_all_ws Hb).
  - intros t -> Hb.
    assert (trim t <> []) as Hne.
    { intros Ht%trim_nil_all_ws. congruence. }
    split; [|exact Hne].
    unfold addManual. apply nonempty_true in Hne. rewrite Hne. simpl.
    unfold setQuotes. do 3 f_equal.
    destruct auth as [[|c a]|]; reflexivity.
Qed.

(** C10 at work: blank text in remote mode, and a padded text with an empty
    author in local mode. *)
Lemma C10_witness :
  Spec.blank (Some (u "   "))
  /\ exec (addManual (Some failing_remote) (Some (u "   ")) None)
          initial_state
     = initial_state
  /\ forallb is_ws (u "  hi ") = false
  /\ quotes (exec (addManual None (Some (u "  hi ")) (Some []))
                  initial_state)
     = [mkQuote (u "hi") UNKNOWN].
Proof.
  split; [reflexivity|]. split; [|split; [reflexivity|]].
  - unfold exec.
    destruct (@C10_manual_add (Some failing_remote) initial_state
                (Some (u "   ")) None) as [Hb _].
    rewrite Hb; reflexivity.
  - unfold exec.
    destruct (@C10_manual_add None initial_state (Some (u "  hi "))
                (Some [])) as [_ Ha].
    destruct (Ha (u "  hi ") eq_refl eq_refl) as [-> _]. reflexivity.
Defined.

(** * Further properties of the page *)

(** ** Searching *)

(** A string is its trimmed form between two runs of white space. *)
Lemma dropWhile_split (p : char16 -> bool) (s : jsstring) :
  exists a, s = a ++ dropWhile p s /\ forallb p a = true.
Proof.
  induction s as [|c s (a & Ha & Hp)]; simpl.
  - now exists [].
  - destruct (p c) eqn:Hc.
    + exists (c :: a). simpl. rewrite Hc. split; [now f_equal | assumption].
    + now exists [].
Qed.

Lemma trim_decompose (s : jsstring) :
  exists a b, s = a ++ trim s ++ b
              /\ forallb is_ws a = true /\ forallb is_ws b = true.
Proof.
  destruct (dropWhile_split is_ws s) as (a & Ha & Hpa).
  destruct (dropWhile_split is_ws (rev (trimStart s))) as (b & Hb & Hpb).
  exists a, (rev b). split; [|split; [assumption|]].
  - unfold trim, trimEnd. rewrite <- rev_app_distr, <- Hb, rev_involutive.
    exact Ha.
  - rewrite forallb_forall in *. intros c Hc. apply Hpb. now apply in_rev.
Qed.

(** Dropping stops at the first unit that fails the test. *)
Lemma dropWhile_stop (p : char16 -> bool) (x : jsstring) (c : char16)
    (rest : jsstring) :
  p c = false -> exists x', dropWhile p (x ++ c :: rest) = x' ++ c :: rest.
Proof.
  intros Hc. induction x as [|d x [x' IH]]; simpl.
  - rewrite Hc. now exists [].
  - destruct (p d); [now exists x' | now exists (d :: x)].
Qed.

(** Trimming never cuts into what is already trimmed. *)
Lemma trim_around (x t y : jsstring) :
  trim t = t -> exists x' y', trim (x ++ t ++ y) = x' ++ t ++ y'.
Proof.
  intros Ht. destruct (trim_shape t) as [Hnil | (c & r & Hs & Hc & Hcr)].
  - rewrite Hnil in Ht. subst t. exists (trim (x ++ y)), []. simpl.
    now rewrite app_nil_r.
  - assert (t = c :: trimEnd r) as Ht' by congruence.
    assert (trimEnd t = t) as Hend.
    { rewrite Ht', trimEnd_cons, trimEnd_idem by assumption. reflexivity. }
    destruct (dropWhile_head is_ws (rev t)) as [Hd | (d & m & Hd & Hdw)].
    { unfold trimEnd in Hend. rewrite Hd in Hend. simpl in Hend.
      rewrite Ht' in Hend. discriminate. }
    assert (rev t = d :: m) as Hrev.
    { unfold trimEnd in Hend. rewrite Hd in Hend.
      rewrite <- Hend at 1. now rewrite rev_involutive. }
    clear Ht Hs Hcr Hend Hd. subst t. set (tl := trimEnd r) in *.
    assert (rev m ++ [d] = c :: tl) as Hcore.
    { change (rev m ++ [d]) with (rev (d :: m)). rewrite <- Hrev.
      apply rev_involutive. }
    destruct (dropWhile_stop x (tl ++ y) Hc) as [x' Hx'].
    destruct (dropWhile_stop (rev y) (m ++ rev x') Hdw) as [y' Hy'].
    exists x', (rev y').
    unfold trim, trimStart. simpl app. rewrite Hx'. unfold trimEnd.
    replace (rev (x' ++ c :: tl ++ y)) with (rev y ++ d :: (m ++ rev x')).
    + rewrite Hy', rev_app_distr. simpl rev.
      rewrite rev_app_distr, rev_involutive, <- !app_assoc.
      f_equal. rewrite app_assoc, Hcore. reflexivity.
    + change (x' ++ c :: tl ++ y) with (x' ++ (c :: tl) ++ y).
      rewrite !rev_app_distr, Hrev, <- app_assoc. reflexivity.
Qed.

(** The trimmed query occurs in the trimmed form of any longer query. *)
Lemma trim_widen (l q r : jsstring) :
  exists pre post, trim (l ++ q ++ r) = pre ++ trim q ++ post.
Proof.
  destruct (trim_decompose q) as (a & b & Hq & _ & _).
  destruct (@trim_around (l ++ a) (trim q) (b ++ r) (trim_idem q))
    as (x' & y' & Hx).
  exists x', y'. rewrite <- Hx. f_equal.
  rewrite Hq at 1. now rewrite <- !app_assoc.
Qed.

Lemma includes_trans (t m s : jsstring) :
  includes t m = true ->
  (exists pre post, m = pre ++ s ++ post) ->
  includes t s = true.
Proof.
  rewrite !includes_spec. intros (p1 & p2 & ->) (q1 & q2 & ->).
  exists (p1 ++ q1), (q2 ++ p2). now rewrite <- !app_assoc.
Qed.

Lemma filter_narrow (A : Type) (f g : A -> bool) (l : list A) :
  (forall x, f x = true -> g x = true) ->
  List.filter f l = List.filter f (List.filter g l).
Proof.
  intros Hfg. induction l as [|x l IH]; simpl; [reflexivity|].
  destruct (g x) eqn:Hg; simpl.
  - destruct (f x); now rewrite IH.
  - destruct (f x) eqn:Hf; [|exact IH].
    apply Hfg in Hf. congruence.
Qed.

(** X3: a quote of the collection is always found by searching for its own
    text, and by searching for its own author. *)
Theorem X3_search_own_text_or_author :
  forall (qs : list Quote) (q : Quote),
    In q qs ->
    In q (filtered qs (text q)) /\ In q (filtered qs (author q)).
Proof.
  intros qs q Hin. rewrite !filtered_unfold, !filter_In, !includes_spec.
  unfold haystack. split; (split; [assumption|]).
  - destruct (trim_decompose (text q)) as (a & b & Hq & _).
    exists a, (b ++ u " " ++ author q).
    rewrite Hq at 1. now rewrite <- !app_assoc.
  - destruct (trim_decompose (author q)) as (a & b & Hq & _).
    exists (text q ++ u " " ++ a), b.
    rewrite Hq at 1. now rewrite <- !app_assoc.
Qed.

Lemma X3_witness :
  In (mkQuote (u "foo") UNKNOWN) two_quotes
  /\ In (mkQuote (u "foo") UNKNOWN) (filtered two_quotes (u "foo"))
  /\ In (mkQuote (u "foo") UNKNOWN) (filtered two_quotes UNKNOWN).
Proof.
  assert (In (mkQuote (u "foo") UNKNOWN) two_quotes) as Hin
    by (right; left; reflexivity).
  split; [exact Hin|].
  exact (@X3_search_own_text_or_author two_quotes
           (mkQuote (u "foo") UNKNOWN) Hin).
Defined.

(** X4: lengthening the query on either side can only narrow the view: the
    view for the longer query is a subsequence of the view for the shorter
    one, and is what the longer query selects from it. *)
Theorem X4_longer_query_narrows :
  forall (qs : list Quote) (l qry r : jsstring),
    filtered qs (l ++ qry ++ r) `sublist_of` filtered qs qry
    /\ filtered qs (l ++ qry ++ r)
       = filtered (filtered qs qry) (l ++ qry ++ r).
Proof.
  intros qs l qry r.
  assert (filtered qs (l ++ qry ++ r)
          = filtered (filtered qs qry) (l ++ qry ++ r)) as Heq.
  { rewrite !filtered_unfold. apply filter_narrow. intros q Hq.
    eapply includes_trans; [exact Hq | apply trim_widen]. }
  split; [|exact Heq].
  rewrite Heq, (filtered_unfold (filtered qs qry)). apply filter_sublist.
Qed.

(** X5: the view of a collection put together from two parts is the view of
    the first followed by the view of the second; so after a commit without
    remote the page shows the matching candidates of the batch, in batch
    order, followed by exactly what it showed before. *)
Theorem X5_view_after_local_commit :
  forall (s : State) (a b : list Quote) (qry : jsstring),
    filtered (a ++ b) qry = filtered a qry ++ filtered b qry
    /\ filtered_view (exec (confirmImport None) s)
       = filtered (previewList s) (query s) ++ filtered_view s.
Proof.
  intros s a b qry. split; [apply List.filter_app|].
  unfold filtered_view, exec. destruct (previewList s) as [|q l] eqn:Hp.
  - rewrite confirmImport_nothing by assumption. reflexivity.
  - rewrite confirmImport_local by congruence. simpl.
    rewrite Hp. apply List.filter_app.
Qed.

(** ** Import, cancel and commit, one after the other *)

(** An import is its two tasks run back to back. *)
Lemma handleFileChange_tasks (host : Host) (s : State) (f : File) :
  handleFileChange (Some f) s
  = finishRead (read_of f) (exec (startRead (Some f)) s).
Proof. reflexivity. Qed.

(** What a finished read leaves: a batch that depends on the read alone,
    and an import error that it sets when the read is rejected and leaves
    as it finds it otherwise. *)
Lemma finishRead_uniform (host : Host) (read : jsstring * jsstring) :
  exists (l : list Quote) (e : option message),
    forall s : State,
      finishRead read s
      = (imported s l (match e with
                       | Some m => Some m
                       | None => importError s
                       end), Normal tt).
Proof.
  destruct read as [nm txt]. unfold finishRead, onload. cbn [fst snd].
  destruct (endsWith nm (u ".json")).
  - unfold try_catch, bind, lift.
    destruct (json_candidates txt) as [l|e].
    + exists l, None. reflexivity.
    + exists [], (Some MsgInvalidJson). reflexivity.
  - destruct (endsWith nm (u ".csv")).
    + exists (csv_candidates (Papa_parse txt)), None. reflexivity.
    + exists [], (Some MsgUnsupportedType). reflexivity.
Qed.

(** X6: the preview batch is always the one of the read that finished last,
    whatever the state it finished in.  When the first import has finished
    before the second file is picked, the state is the one the second
    import alone gives, so importing the same file twice in that way is
    importing it once.  When the second file is picked while the first is
    still being read, the batch is that of whichever read finishes last:
    the first file's if its read finishes last; and if the first read
    finishes first, an error it set stays on display beside the second
    file's batch when the second file is accepted. *)
Theorem X6_last_finished_read_wins :
  forall (host : Host) (s : State) (f g : File),
    (forall (read : jsstring * jsstring) (s1 s2 : State),
        previewList (exec (finishRead read) s1)
        = previewList (exec (finishRead read) s2))
    /\ exec (finishRead (read_of g))
          (exec (startRead (Some g))
             (exec (finishRead (read_of f)) (exec (startRead (Some f)) s)))
       = exec (handleFileChange (Some g)) s
    /\ previewList
         (exec (finishRead (read_of f))
            (exec (finishRead (read_of g))
               (exec (startRead (Some g)) (exec (startRead (Some f)) s))))
       = previewList (exec (handleFileChange (Some f)) s)
    /\ previewList
         (exec (finishRead (read_of g))
            (exec (finishRead (read_of f))
               (exec (startRead (Some g)) (exec (startRead (Some f)) s))))
       = previewList (exec (handleFileChange (Some g)) s)
    /\ (importError (exec (handleFileChange (Some g)) s) = None ->
        importError
          (exec (finishRead (read_of g))
             (exec (finishRead (read_of f))
                (exec (startRead (Some g)) (exec (startRead (Some f)) s))))
        = importError (exec (handleFileChange (Some f)) s)).
Proof.
  intros host s f g. split.
  { intros read s1 s2. unfold exec.
    destruct (finishRead_uniform host read) as (l & e & Hr).
    now rewrite !Hr. }
  unfold exec. rewrite !handleFileChange_tasks. unfold exec.
  destruct (finishRead_uniform host (read_of f)) as (lf & ef & Hf).
  destruct (finishRead_uniform host (read_of g)) as (lg & eg & Hg).
  rewrite !Hf, !Hg. cbn.
  split; [now destruct eg|]. split; [reflexivity|]. split; [reflexivity|].
  destruct eg; [discriminate | reflexivity].
Qed.

(** X7: a cancel clicked after an import has finished wipes it: the state
    is the one a cancel alone gives, with the quote collection and the
    alerts as they were.  A cancel clicked while the file is still being
    read is overridden: once the read has finished the state is the one the
    import alone gives.  With no commit in flight the state right after a
    cancel is the Empty state, and a commit then only shows the nothing to
    import alert. *)
Theorem X7_cancel_and_import :
  forall (host : Host) (supabase : option Remote) (s : State)
         (file : option File) (f : File),
    exec cancelPreview (exec (handleFileChange file) s) = exec cancelPreview s
    /\ exec (finishRead (read_of f))
          (exec cancelPreview (exec (startRead (Some f)) s))
       = exec (handleFileChange (Some f)) s
    /\ quotes (exec cancelPreview s) = quotes s
    /\ alerts (exec cancelPreview s) = alerts s
    /\ (loading s = false -> workflow_of (exec cancelPreview s) = Empty)
    /\ quotes (exec (confirmImport supabase) (exec cancelPreview s))
       = quotes s
    /\ alerts (exec (confirmImport supabase) (exec cancelPreview s))
       = alerts s ++ [MsgNothingToImport].
Proof.
  intros host supabase s file f. split; [|split; [|split; [|split; [|split]]]].
  - destruct file as [f'|]; [|reflexivity]. unfold exec at 2.
    destruct (handleFileChange_frame s f') as (l & e & ->). reflexivity.
  - unfold exec. rewrite handleFileChange_tasks. unfold exec.
    destruct (finishRead_uniform host (read_of f)) as (l & e & Hr).
    rewrite !Hr. reflexivity.
  - reflexivity.
  - reflexivity.
  - intros Hl. apply workflow_empty. now split.
  - unfold exec at 1 3. rewrite confirmImport_nothing by reflexivity.
    now split.
Qed.

Lemma X7_witness :
  loading previewing_state = false
  /\ workflow_of (exec cancelPreview previewing_state) = Empty
  /\ previewList
       (exec (@finishRead scenario_host (@read_of scenario_host
                                                  scenario_csv_file))
             (exec cancelPreview
                   (exec (@startRead scenario_host (Some scenario_csv_file))
                         previewing_state)))
     = two_quotes.
Proof.
  destruct (@X7_cancel_and_import scenario_host None previewing_state
              None scenario_csv_file) as (_ & Hlate & _ & _ & Hw & _).
  split; [reflexivity|]. split; [apply Hw; reflexivity|].
  rewrite Hlate. reflexivity.
Defined.

(** X8: without remote, a second commit right after a successful one adds
    nothing: the collection is the batch followed by the prior collection,
    once, and the second commit only shows the nothing to import alert. *)
Theorem X8_second_local_commit_adds_nothing :
  forall (s : State),
    previewList s <> [] ->
    quotes (exec (confirmImport None) (exec (confirmImport None) s))
    = previewList s ++ quotes s
    /\ alerts (exec (confirmImport None) (exec (confirmImport None) s))
       = alerts s ++ [MsgAddedLocally (length (previewList s));
                      MsgNothingToImport].
Proof.
  intros s Hp. unfold exec.
  rewrite (confirmImport_local Hp). cbn [fst].
  rewrite confirmImport_nothing by reflexivity. simpl.
  split; [reflexivity | now rewrite <- app_assoc].
Qed.

Lemma X8_witness :
  previewList previewing_state <> []
  /\ quotes (exec (confirmImport None)
                  (exec (confirmImport None) previewing_state))
     = two_quotes ++ [mkQuote (u "old") (u "z")].
Proof.
  assert (previewList previewing_state <> []) as Hp by discriminate.
  split; [exact Hp|].
  exact (proj1 (@X8_second_local_commit_adds_nothing previewing_state Hp)).
Defined.

(** A failed commit changes the alerts only (the loading flag was down and
    is down again). *)
Lemma confirmImport_failed (db : Remote) (s : State) :
  workflow_of s = Previewing ->
  Spec.persistence_fails db (payload_of (previewList s)) ->
  exists extra,
    exec (confirmImport (Some db)) s
    = mkState (quotes s) (query s) (previewList s) (importError s)
              (loading s) (alerts s ++ extra).
Proof.
  intros [Hl Hp]%workflow_previewing Hfail. unfold exec.
  rewrite confirmImport_remote by assumption. rewrite Hl. simpl.
  destruct Hfail as [[err ->] | [[e ->] | [-> Hsel]]];
    [now eexists | now eexists |].
  destruct Hsel as [-> | [e ->]]; eexists; now rewrite <- app_assoc.
Qed.

(** X9: after a failed commit the import button is enabled again and the
    batch is the same, so a second commit hands the remote the very records
    of the first, also when the first insert had been stored and only the
    re-fetch failed; what the second commit does depends on the remote, as
    it answers by then, only through its answers to the insert of those
    records and to the re-fetch of 500 rows. *)
Theorem X9_retry_sends_same_records :
  forall (db retry retry' : Remote) (s : State),
    workflow_of s = Previewing ->
    Spec.persistence_fails db (payload_of (previewList s)) ->
    import_disabled (exec (confirmImport (Some db)) s) = false
    /\ payload_of (previewList (exec (confirmImport (Some db)) s))
       = payload_of (previewList s)
    /\ (insert retry (payload_of (previewList s))
        = insert retry' (payload_of (previewList s)) ->
        select_quotes retry 500 = select_quotes retry' 500 ->
        confirmImport (Some retry) (exec (confirmImport (Some db)) s)
        = confirmImport (Some retry') (exec (confirmImport (Some db)) s)).
Proof.
  intros db retry retry' s Hw Hfail.
  destruct (confirmImport_failed Hw Hfail) as [extra ->].
  apply workflow_previewing in Hw as [Hl Hp].
  split; [|split; [reflexivity|]].
  - unfold import_disabled. cbn [previewList loading]. rewrite Hl.
    now rewrite (length_eqb_nil Hp).
  - intros Hi Hs.
    rewrite !confirmImport_remote by exact Hp.
    cbn [previewList]. now rewrite Hi, Hs.
Qed.

Lemma X9_witness :
  workflow_of previewing_state = Previewing
  /\ Spec.persistence_fails failing_remote
       (payload_of (previewList previewing_state))
  /\ insert working_remote (payload_of (previewList previewing_state))
     = insert picky_remote (payload_of (previewList previewing_state))
  /\ select_quotes working_remote 500 = select_quotes picky_remote 500
  /\ confirmImport (Some working_remote)
       (exec (confirmImport (Some failing_remote)) previewing_state)
     = confirmImport (Some picky_remote)
         (exec (confirmImport (Some failing_remote)) previewing_state).
Proof.
  assert (Spec.persistence_fails failing_remote
            (payload_of (previewList previewing_state))) as Hf.
  { left. now exists RemoteError. }
  split; [reflexivity|]. split; [exact Hf|].
  split; [reflexivity|]. split; [reflexivity|].
  destruct (@X9_retry_sends_same_records failing_remote working_remote
              picky_remote previewing_state eq_refl Hf) as (_ & _ & Hsame).
  apply Hsame; reflexivity.
Defined.


(** Every import leaves a batch that went through the non-empty-text
    filter. *)
Lemma import_batch_filtered (host : Host) (s : State) (f : File) :
  exists l,
    previewList (exec (handleFileChange (Some f)) s)
    = List.filter (fun p => nonempty (text p)) l.
Proof.
  unfold exec.
  destruct (endsWith (toLowerCase (name f)) (u ".json")) eqn:Hj.
  - rewrite handleFileChange_json by assumption. unfold json_candidates.
    destruct (JSON_parse (content f)) as [v|]; cbn [cbind fst];
      [|now exists []].
    destruct v; cbn [cbind fst]; try (now exists []).
    destruct (mapM json_item elems) as [parsed|e]; cbn [cbind fst];
      [now exists parsed | now exists []].
  - destruct (endsWith (toLowerCase (name f)) (u ".csv")) eqn:Hc.
    + rewrite handleFileChange_csv by assumption. now eexists.
    + rewrite handleFileChange_other by assumption. now exists [].
Qed.

(** X11: whatever file was imported, every record a commit sends to the
    remote table for that batch has a text that is not empty and an author
    that is not empty. *)
Theorem X11_imported_payload_complete :
  forall (host : Host) (s : State) (f : File),
    Forall (fun p => text p <> [] /\ author p <> [])
           (payload_of (previewList (exec (handleFileChange (Some f)) s))).
Proof.
  intros host s f. destruct (import_batch_filtered host s f) as [l ->].
  apply List.Forall_forall. intros p [q [<- Hq]]%in_map_iff. simpl.
  apply filter_In in Hq as [_ Hq]. split.
  - now apply nonempty_true.
  - destruct (author q); discriminate.
Qed.

(** X14: a commit never throws, whatever the remote does; it never touches
    the query or the import error; when the batch is not empty it ends with
    the loading flag down, and when the batch is empty it leaves the flag
    as it found it. *)
Theorem X14_commit_returns_and_lowers_flag :
  forall (supabase : option Remote) (s : State),
    snd (confirmImport supabase s) = Normal tt
    /\ query (exec (confirmImport supabase) s) = query s
    /\ importError (exec (confirmImport supabase) s) = importError s
    /\ (previewList s <> [] ->
        loading (exec (confirmImport supabase) s) = false)
    /\ (previewList s = [] ->
        loading (exec (confirmImport supabase) s) = loading s).
Proof.
  intros supabase s. unfold exec.
  assert (previewList s = [] \/ previewList s <> []) as [Hp | Hne]
    by (destruct (previewList s); [now left | now right]).
  - rewrite confirmImport_nothing by assumption. simpl.
    do 3 (split; [reflexivity|]). split; [congruence | reflexivity].
  - assert (forall q i a,
              snd (mkState q (query s) i (importError s) false a, Normal tt)
              = Normal tt
              /\ query (mkState q (query s) i (importError s) false a)
                 = query s
              /\ importError (mkState q (query s) i (importError s) false a)
                 = importError s
              /\ (previewList s <> [] -> false = false)
              /\ (previewList s = [] -> false = loading s)) as Hdone.
    { intros q i a. do 4 (split; [reflexivity|]). congruence. }
    destruct supabase as [db|].
    + rewrite confirmImport_remote by assumption. cbn [fst snd].
      destruct (insert db (payload_of (previewList s))) as [[err|]|e];
        [now apply Hdone | | now apply Hdone].
      destruct (select_quotes db 500) as [[rows|]|e]; now apply Hdone.
    + rewrite confirmImport_local by assumption. now apply Hdone.
Qed.

Lemma X14_witness :
  previewList previewing_state <> []
  /\ loading (exec (confirmImport (Some unreachable_remote)) previewing_state)
     = false.
Proof.
  assert (previewList previewing_state <> []) as Hp by discriminate.
  split; [exact Hp|].
  destruct (@X14_commit_returns_and_lowers_flag (Some unreachable_remote)
              previewing_state) as (_ & _ & _ & Hl & _).
  exact (Hl Hp).
Defined.



(** ** Initial load *)






(** ** More of the import parser *)

(** X12: a .json file whose content parses to an array of numbers, strings,
    booleans and arrays only is not rejected: no element gives a candidate,
    so the preview batch is empty and there is no import error. *)
Theorem X12_json_plain_elements_dropped :
  forall (host : Host) (s : State) (f : File) (data : list json),
    endsWith (toLowerCase (name f)) (u ".json") = true ->
    JSON_parse (content f) = Some (JArr data) ->
    Forall (fun i => i <> JNull /\ forall props, i <> JObj props) data ->
    handleFileChange (Some f) s = (imported s [] None, Normal tt).
Proof.
  intros host s f data Hj Hp Hd.
  rewrite handleFileChange_json by assumption.
  unfold json_candidates. rewrite Hp. cbn [cbind].
  rewrite (mapM_normal_map (g := fun _ => mkQuote [] UNKNOWN)).
  - cbn [cbind].
    replace (List.filter (fun p => nonempty (text p))
               (map (fun _ : json => mkQuote [] UNKNOWN) data))
      with (@nil Quote); [reflexivity|].
    clear. induction data as [|i l IH]; [reflexivity | exact IH].
  - eapply Forall_impl; [exact Hd|]. intros i [Hn Ho].
    destruct i; try reflexivity; [congruence | now elim (Ho props)].
Qed.

Lemma X12_witness :
  endsWith (@toLowerCase mixed_host (name mixed_array_file)) (u ".json")
    = true
  /\ @JSON_parse mixed_host (content mixed_array_file)
     = Some (JArr mixed_array_items)
  /\ exec (@handleFileChange mixed_host (Some mixed_array_file))
          previewing_state
     = imported previewing_state [] None.
Proof.
  split; [reflexivity|]. split; [reflexivity|]. unfold exec.
  rewrite (@X12_json_plain_elements_dropped mixed_host previewing_state
             mixed_array_file mixed_array_items eq_refl eq_refl);
    [reflexivity|].
  repeat (apply List.Forall_cons; [split; [discriminate|];
                                   intros props; discriminate|]).
  apply List.Forall_nil.
Defined.

(** X13: a CSV import looks at the first two columns only: cutting every
    row down to its first two columns gives the same candidates; a row with
    no column at all gives none; and a row with a single column gets the
    sentinel as author. *)
Theorem X13_csv_first_two_columns :
  forall (rows : list (list jsstring)) (t : jsstring),
    csv_candidates (map (take 2) rows) = csv_candidates rows
    /\ csv_candidates ([] :: rows) = csv_candidates rows
    /\ csv_row [t] = mkQuote (trim t) UNKNOWN.
Proof.
  intros rows t. split; [|split; [reflexivity | now destruct t]].
  unfold csv_candidates. rewrite map_map. f_equal. apply map_ext.
  intros row. unfold csv_row. now rewrite !lookup_take_lt by lia.
Qed.

(** ** Manual add *)

(** The author a manual add stores. *)
Lemma manual_author (auth : option jsstring) :
  trim (or_default (match auth with
                    | Some a => a
                    | None => UNKNOWN
                    end) UNKNOWN)
  = Spec.author_of auth.
Proof. destruct auth as [[|c a]|]; reflexivity. Qed.

Lemma addManual_unfold (supabase : option Remote) (s : State)
    (t : jsstring) (auth : option jsstring) :
  forallb is_ws t = false ->
  addManual supabase (Some t) auth s
  = match supabase with
    | Some db =>
        match insert db [mkQuote (trim t) (Spec.author_of auth)] with
        | Normal (Some _) => alert MsgAddError s
        | Normal None =>
            setQuotes
              (fun prev => mkQuote (trim t) (Spec.author_of auth) :: prev) s
        | Throw _ => (s, Normal tt)
        end
    | None =>
        setQuotes
          (fun prev => mkQuote (trim t) (Spec.author_of auth) :: prev) s
    end.
Proof.
  intros Hb. unfold addManual.
  assert (nonempty (trim t) = true) as ->.
  { apply nonempty_true. intros Ht%trim_nil_all_ws. congruence. }
  cbn [negb]. rewrite manual_author.
  destruct supabase as [db|]; [|reflexivity].
  destruct (insert db [mkQuote (trim t) (Spec.author_of auth)])
    as [[err|]|e]; reflexivity.
Qed.

(** A manual add never throws. *)
Lemma addManual_returns (supabase : option Remote) (s : State)
    (txt auth : option jsstring) :
  snd (addManual supabase txt auth s) = Normal tt.
Proof.
  unfold addManual. destruct txt as [t|]; [|reflexivity].
  destruct (negb (nonempty (trim t))); [reflexivity|].
  destruct supabase as [db|]; [|reflexivity].
  destruct (insert db _) as [[err|]|e]; reflexivity.
Qed.

(** X16: manual add of a text that is not blank, with a remote configured:
    the record sent is the one local mode would add; it is put at the front
    of the collection only when the insert resolves without error; an insert
    that resolves with an error leaves the collection as it was and shows
    the add error alert; an insert that rejects leaves the whole state as it
    was, alerts included. *)
Theorem X16_manual_add_remote :
  forall (db : Remote) (s : State) (t : jsstring) (auth : option jsstring),
    forallb is_ws t = false ->
    (insert db [mkQuote (trim t) (Spec.author_of auth)] = Normal None ->
     quotes (exec (addManual (Some db) (Some t) auth) s)
     = mkQuote (trim t) (Spec.author_of auth) :: quotes s
     /\ alerts (exec (addManual (Some db) (Some t) auth) s) = alerts s)
    /\ (forall err,
          insert db [mkQuote (trim t) (Spec.author_of auth)]
          = Normal (Some err) ->
          quotes (exec (addManual (Some db) (Some t) auth) s) = quotes s
          /\ alerts (exec (addManual (Some db) (Some t) auth) s)
             = alerts s ++ [MsgAddError])
    /\ (forall e,
          insert db [mkQuote (trim t) (Spec.author_of auth)] = Throw e ->
          exec (addManual (Some db) (Some t) auth) s = s).
Proof.
  intros db s t auth Hb. unfold exec.
  rewrite (addManual_unfold (Some db) s auth Hb).
  split; [|split].
  - intros ->. now split.
  - intros err ->. now split.
  - intros e ->. reflexivity.
Qed.

Lemma X16_witness :
  forallb is_ws (u " hi ") = false
  /\ insert failing_remote [mkQuote (trim (u " hi ")) (Spec.author_of None)]
     = Normal (Some RemoteError)
  /\ quotes (exec (addManual (Some failing_remote) (Some (u " hi ")) None)
                  previewing_state)
     = [mkQuote (u "old") (u "z")]
  /\ exec (addManual (Some unreachable_remote) (Some (u " hi ")) None)
          previewing_state
     = previewing_state.
Proof.
  split; [reflexivity|]. split; [reflexivity|]. split.
  - destruct (@X16_manual_add_remote failing_remote previewing_state
                (u " hi ") None eq_refl) as (_ & Herr & _).
    destruct (Herr RemoteError eq_refl) as [-> _]. reflexivity.
  - destruct (@X16_manual_add_remote unreachable_remote previewing_state
                (u " hi ") None eq_refl) as (_ & _ & Hrej).
    exact (Hrej _ eq_refl).
Defined.

(** X17: after a manual add without remote of a text that is not blank,
    searching for the text as it was typed shows the new quote first. *)
Theorem X17_manual_add_then_search :
  forall (s : State) (t : jsstring) (auth : option jsstring),
    forallb is_ws t = false ->
    head (filtered (quotes (exec (addManual None (Some t) auth) s)) t)
    = Some (mkQuote (trim t) (Spec.author_of auth)).
Proof.
  intros s t auth Hb. unfold exec.
  rewrite (addManual_unfold None s auth Hb). cbn [setQuotes fst quotes].
  rewrite filtered_unfold. cbn [List.filter].
  assert (includes (haystack (mkQuote (trim t) (Spec.author_of auth)))
                   (trim t) = true) as ->.
  { apply includes_spec. now exists [], (u " " ++ Spec.author_of auth). }
  reflexivity.
Qed.

Lemma X17_witness :
  forallb is_ws (u " hi ") = false
  /\ head (filtered
             (quotes (exec (addManual None (Some (u " hi ")) None)
                           previewing_state))
             (u " hi "))
     = Some (mkQuote (u "hi") UNKNOWN).
Proof.
  split; [reflexivity|].
  exact (@X17_manual_add_then_search previewing_state (u " hi ") None
           eq_refl).
Defined.

(** X18: submitting the manual-add form does what a manual add with the two
    fields as typed does, so the default author the form fills in changes
    nothing; the form comes back empty every time, also when the text was
    blank and nothing was added. *)
Theorem X18_form_submit :
  forall (supabase : option Remote) (fm : Form) (s : State),
    ManualAdd_submit supabase fm s
    = (exec (addManual supabase (Some (form_text fm))
                       (Some (form_author fm))) s,
       Normal (mkForm [] []))
    /\ (form_author fm = [] ->
        exec (ManualAdd_submit supabase fm) s
        = exec (addManual supabase (Some (form_text fm)) None) s).
Proof.
  intros supabase fm s.
  assert (forall a : jsstring,
            addManual supabase (Some (form_text fm))
                      (Some (or_default a UNKNOWN)) s
            = addManual supabase (Some (form_text fm)) (Some a) s) as Hdef.
  { intros a. destruct a; reflexivity. }
  assert (ManualAdd_submit supabase fm s
          = (exec (addManual supabase (Some (form_text fm))
                             (Some (form_author fm))) s,
             Normal (mkForm [] []))) as Hsub.
  { unfold ManualAdd_submit, bind, exec. rewrite Hdef.
    pose proof (addManual_returns supabase s (Some (form_text fm))
                  (Some (form_author fm))) as Hr.
    destruct (addManual supabase (Some (form_text fm))
                        (Some (form_author fm)) s) as [s' r].
    simpl in Hr. now subst r. }
  split; [exact Hsub|].
  intros Ha. unfold exec at 1. rewrite Hsub, Ha. reflexivity.
Qed.

Lemma X18_witness :
  form_author (mkForm (u "hi") []) = []
  /\ quotes (exec (ManualAdd_submit None (mkForm (u "hi") []))
                  initial_state)
     = [mkQuote (u "hi") UNKNOWN].
Proof.
  split; [reflexivity|].
  destruct (@X18_form_submit None (mkForm (u "hi") []) initial_state)
    as [_ Hn].
  rewrite (Hn eq_refl). reflexivity.
Defined.

(** ** The admin panel *)



(** X20: the preview grid shows the first 200 candidates at most: what it
    shows is a prefix of the batch, all of it when the batch has no more
    than 200 candidates; a commit without remote adds the whole batch, the
    candidates not shown included. *)
Theorem X20_preview_grid_prefix :
  forall (s : State),
    previewList s = preview_shown s ++ drop 200 (previewList s)
    /\ length (preview_shown s) = Nat.min 200 (length (previewList s))
    /\ (length (previewList s) <= 200 -> preview_shown s = previewList s)
    /\ quotes (exec (confirmImport None) s)
       = preview_shown s ++ drop 200 (previewList s) ++ quotes s.
Proof.
  intros s. unfold preview_shown.
  split; [now rewrite take_drop|]. split; [apply length_take|].
  split; [intros Hl; now apply take_ge|].
  rewrite app_assoc, take_drop. unfold exec.
  destruct (previewList s) as [|q l] eqn:Hp.
  - now rewrite confirmImport_nothing.
  - rewrite confirmImport_local by congruence. simpl. now rewrite Hp.
Qed.

(** ** Copy and share *)

(** X21: sharing a quote hands the platform one line, the text between
    double quotes followed by a dash and a label that is never empty (the
    author, or the sentinel when the author is empty).  When the platform
    has a share surface the line goes there and nowhere else, and nothing is
    alerted, not even when the share fails; otherwise sharing is copying.
    Copying without a clipboard does nothing at all; with one it writes the
    line and shows exactly one alert. *)
Theorem X21_share_and_copy :
  forall (nav : Navigator) (q : Quote),
    (exists label,
        label <> []
        /\ quote_line q = [34%N] ++ text q ++ [34; 32; 8212; 32]%N ++ label
        /\ (author q <> [] -> label = author q)
        /\ (author q = [] -> label = UNKNOWN))
    /\ (forall t,
          In (ShareCall t) (handleShare nav q)
          \/ In (ClipboardWrite t) (handleShare nav q) ->
          t = quote_line q)
    /\ (share nav <> None ->
        forall e, In e (handleShare nav q) ->
                  e = ShareCall (quote_line q) \/ e = ConsoleWarn)
    /\ (share nav = None -> handleShare nav q = handleCopy nav q)
    /\ (clipboard_writeText nav = None -> handleCopy nav q = [])
    /\ (clipboard_writeText nav <> None ->
        exists n, handleCopy nav q
                  = [ClipboardWrite (quote_line q); AlertNotice n]).
Proof.
  intros nav q. split; [|split; [|split; [|split; [|split]]]].
  - exists (or_default (author q) UNKNOWN). split; [|split; [|split]].
    + destruct (author q); discriminate.
    + reflexivity.
    + destruct (author q); [congruence | reflexivity].
    + now intros ->.
  - unfold handleShare, handleCopy.
    destruct (share nav) as [sh|].
    + destruct (sh (quote_line q)); simpl; intros t H; intuition congruence.
    + destruct (clipboard_writeText nav) as [w|]; simpl; intros t H;
        intuition congruence.
  - unfold handleShare. destruct (share nav) as [sh|]; [|congruence].
    intros _ e. destruct (sh (quote_line q)); simpl; intuition.
  - unfold handleShare. now intros ->.
  - unfold handleCopy. now intros ->.
  - unfold handleCopy. destruct (clipboard_writeText nav) as [w|];
      [|congruence].
    intros _. now eexists.
Qed.

Lemma X21_witness :
  share (mkNavigator None (Some (fun _ => false))) <> None
  /\ handleShare (mkNavigator None (Some (fun _ => false)))
                 (mkQuote (u "a") [])
     = [ShareCall ([34; 97; 34; 32; 8212; 32]%N ++ UNKNOWN); ConsoleWarn]
  /\ handleShare (mkNavigator None None) (mkQuote (u "a") []) = [].
Proof.
  split; [discriminate|]. split; [reflexivity|].
  destruct (@X21_share_and_copy (mkNavigator None None) (mkQuote (u "a") []))
    as (_ & _ & _ & Hs & Hc & _).
  rewrite (Hs eq_refl). exact (Hc eq_refl).
Defined.
